(** * pgdata client: a shallow embedding of [src/pgdata/client.py]

    The class [PgDataClient] is embedded function by function.  Python
    objects that travel through the client (tokens, JSON bodies, query
    values, the [next] link of a page) are values of the type [value];
    exceptions are values of [exn]; the HTTP library is a [server], a
    function that answers a request given everything exchanged so far.
    Every method that touches the network runs in the monad [M], which
    threads the log of exchanges and propagates exceptions. *)

From Stdlib Require Import ZArith Ascii String DecimalString.
From stdpp Require Import base gmap strings list.
From Equations Require Import Equations.

(** ** Python values *)

(** What [json.loads] can produce, and what callers pass as arguments.
    JSON numbers are kept to the integers.  A [PDict] lists the items of
    the dict in insertion order; lookup takes the first binding of a key. *)
#[warnings="-register-all"]
Inductive value : Type :=
| PNone
| PBool (b : bool)
| PInt (n : Z)
| PStr (s : string)
| PList (xs : list value)
| PDict (items : list (string * value)).

(** [bool(v)]: the test behind [if v], [not v], [and], [or] and [assert]. *)
Definition truthy (v : value) : bool :=
  match v with
  | PNone => false
  | PBool b => b
  | PInt n => negb (n =? 0)%Z
  | PStr s => negb (String.eqb s "")
  | PList xs => match xs with [] => false | _ => true end
  | PDict items => match items with [] => false | _ => true end
  end.

(** [a or b] and [a and b] return one of their operands. *)
Definition py_or (a b : value) : value := if truthy a then a else b.
Definition py_and (a b : value) : value := if truthy a then b else a.

(** [v is None] *)
Definition is_none (v : value) : bool :=
  match v with PNone => true | _ => false end.

(** ** Strings *)

(** [s[-1]], which raises IndexError on the empty string ([None] here). *)
Fixpoint last_char (s : string) : option ascii :=
  match s with
  | EmptyString => None
  | String c s' => match s' with EmptyString => Some c | _ => last_char s' end
  end.

(** [s[:-1]] *)
Fixpoint drop_last (s : string) : string :=
  match s with
  | EmptyString => EmptyString
  | String c s' =>
      match s' with EmptyString => EmptyString | _ => String c (drop_last s') end
  end.

(** [str(n)] for an int, as in [f'{port}']. *)
Definition str_of_int (n : Z) : string := NilZero.string_of_int (Z.to_int n).

(** ['%0<width>d' % n] for a natural number [n]. *)
Definition zero_padded (width n : nat) : string :=
  let digits := NilZero.string_of_uint (Nat.to_uint n) in
  String.concat "" (replicate (width - String.length digits) "0") +:+ digits.

(** ** Dates *)

Record date := { year : nat; month : nat; day : nat }.

(** A naive [datetime] (no tzinfo). *)
Record datetime :=
  { on_day : date; hour : nat; minute : nat; second : nat; microsecond : nat }.

(** The accessors call [.isoformat()] on whatever they are given; [date]
    and its subclass [datetime] both answer. *)
Inductive temporal := Date (d : date) | DateTime (t : datetime).

(** [date.isoformat]: ['%04d-%02d-%02d' % (year, month, day)]. *)
Definition date_isoformat (d : date) : string :=
  zero_padded 4 (year d) +:+ "-" +:+ zero_padded 2 (month d) +:+ "-"
    +:+ zero_padded 2 (day d).

(** [datetime.isoformat] with the default separator ['T'] and
    [timespec='auto']: the microseconds are printed when they are not 0. *)
Definition datetime_isoformat (t : datetime) : string :=
  date_isoformat (on_day t) +:+ "T" +:+ zero_padded 2 (hour t) +:+ ":"
    +:+ zero_padded 2 (minute t) +:+ ":" +:+ zero_padded 2 (second t)
    +:+ match microsecond t with
        | O => ""
        | us => "." +:+ zero_padded 6 us
        end.

Definition isoformat (x : temporal) : string :=
  match x with
  | Date d => date_isoformat d
  | DateTime t => datetime_isoformat t
  end.

(** ** Requests, responses, exceptions *)

Inductive verb := GET | POST.

(** A header is a fixed text or the text [f'Token {tok}']. *)
Inductive header_value := Lit (s : string) | TokenOf (tok : value).

(** One call of [requests.get] or [requests.post].  The timeout is the
    pair (connect, read) in milliseconds. *)
Record request := {
  rq_verb : verb;
  rq_uri : value;
  rq_params : gmap string value;
  rq_json : option value;
  rq_timeout : option (Z * Z);
  rq_headers : gmap string header_value }.

(** A [requests.Response]: [json] is what [res.json()] returns, [None]
    when the body is not JSON. *)
Record response := { status_code : Z; text : string; json : option value }.

Inductive exn :=
| AssertionError
| IndexError
| KeyError (key : string)
| TypeError
| JSONDecodeError
| RequestException (reason : string)
| HTTPError (res : response).

(** What the HTTP library does with a request: a response arrives, or the
    call itself raises (connection refused, timeout, bad URL). *)
Inductive http_result := Sent (res : response) | Failed (reason : string).

Definition exchange : Type := request * http_result.

(** The remote side and the transport: the answer to a request may depend
    on every exchange before it. *)
Definition server : Type := list exchange -> request -> http_result.

(** ** The monad of client code *)

(** [Running] is a loop that has not finished within its fuel. *)
Inductive outcome (A : Type) :=
| Return (a : A)
| Raise (e : exn)
| Running.
Arguments Return {A} a.
Arguments Raise {A} e.
Arguments Running {A}.

Definition M (A : Type) : Type := list exchange -> outcome A * list exchange.

Definition ret {A} (a : A) : M A := fun log => (Return a, log).
Definition raise {A} (e : exn) : M A := fun log => (Raise e, log).
Definition bind {A B} (c : M A) (k : A -> M B) : M B :=
  fun log =>
    match c log with
    | (Return a, log') => k a log'
    | (Raise e, log') => (Raise e, log')
    | (Running, log') => (Running, log')
    end.
Definition lift {A} (o : outcome A) : M A := fun log => (o, log).

Notation "'let!' x ':=' c 'in' k" := (bind c (fun x => k))
  (at level 10, x name, c at level 100, k at level 200).

(** ** Subscripts and in-place addition *)

Fixpoint assoc (key : string) (items : list (string * value)) : option value :=
  match items with
  | [] => None
  | (k, v) :: rest => if String.eqb k key then Some v else assoc key rest
  end.

(** [v[key]] for a string [key]: only a dict can be indexed by a string. *)
Definition getitem (v : value) (key : string) : outcome value :=
  match v with
  | PDict items =>
      match assoc key items with
      | Some x => Return x
      | None => Raise (KeyError key)
      end
  | _ => Raise TypeError
  end.

(** The keys of a dict, each once, in the order of first insertion. *)
Fixpoint dict_keys (seen : list string) (items : list (string * value))
  : list string :=
  match items with
  | [] => []
  | (k, _) :: rest =>
      if bool_decide (k ∈ seen) then dict_keys seen rest
      else k :: dict_keys (k :: seen) rest
  end.

(** [results += v] on a list [results]: [list.__iadd__] extends the list
    with the items of any iterable, and raises TypeError otherwise. *)
Definition iadd (results : list value) (v : value) : outcome (list value) :=
  match v with
  | PList xs => Return (results ++ xs)
  | PStr s =>
      Return (results ++ map (fun c => PStr (String c "")) (list_ascii_of_string s))
  | PDict items => Return (results ++ map PStr (dict_keys [] items))
  | PNone | PBool _ | PInt _ => Raise TypeError
  end.

(** ** The client *)

Record PgDataClient := {
  host : string;
  token : value;
  username : value;
  password : value }.

Definition TIMEOUT : Z * Z := (3000, 3050)%Z.
Definition HDR_ACCEPT : string := "application/json; version=1.0".
Definition HDR_CONTENT : string := "application/json".

(** The loop of [__init__]:
    [while host[-1] == '/': host = host[:-1]]. *)
Equations? strip_slashes (h : string) : outcome string
  by wf (String.length h) lt :=
  strip_slashes h with Logic.inspect (last_char h) := {
    | exist _ None _ => Raise IndexError
    | exist _ (Some c) _ =>
        if Ascii.eqb c "/" then strip_slashes (drop_last h) else Return h }.
Proof.
  clear strip_slashes.
  destruct h as [|a h]; [discriminate|].
  clear e. revert a. induction h as [|b h IH]; intros a; simpl; [lia|].
  specialize (IH b). simpl in IH. destruct h; simpl in *; lia.
Qed.

Definition __init__ (host : string) (port : Z) (token username password : value)
  : outcome PgDataClient :=
  if truthy (py_or token (py_and username password)) then
    match strip_slashes host with
    | Return h =>
        Return {| host := h +:+ ":" +:+ str_of_int port;
                  token := token;
                  username := username;
                  password := password |}
    | Raise e => Raise e
    | Running => Running
    end
  else Raise AssertionError.

(** The keyword arguments that [_get] passes on to [requests.get]; an
    absent keyword is [None]. *)
Record keywords := {
  kw_params : option (gmap string value);
  kw_timeout : option (Z * Z);
  kw_headers : option (gmap string header_value) }.

Definition _set_request_params (self : PgDataClient) (kwargs : keywords) : keywords :=
  let kwargs :=
    match kw_timeout kwargs with
    | None => {| kw_params := kw_params kwargs;
                 kw_timeout := Some TIMEOUT;
                 kw_headers := kw_headers kwargs |}
    | Some _ => kwargs
    end in
  let kwargs :=
    match kw_headers kwargs with
    | None => {| kw_params := kw_params kwargs;
                 kw_timeout := kw_timeout kwargs;
                 kw_headers := Some ∅ |}
    | Some _ => kwargs
    end in
  {| kw_params := kw_params kwargs;
     kw_timeout := kw_timeout kwargs;
     kw_headers :=
       (fun headers =>
          <["Authorization" := TokenOf (token self)]>
            (<["Content-Type" := Lit HDR_CONTENT]>
               (<["Accept" := Lit HDR_ACCEPT]> headers)))
       <$> kw_headers kwargs |}.

(** [Response.raise_for_status] of the requests library: HTTPError for a
    status from 400 up to 599, carrying the response. *)
Definition http_error (status : Z) : bool :=
  ((400 <=? status) && (status <? 600))%Z.

Definition raise_for_status (res : response) : outcome unit :=
  if http_error (status_code res) then Raise (HTTPError res) else Return tt.

(** [res.json()] *)
Definition response_json (res : response) : outcome value :=
  match json res with
  | Some v => Return v
  | None => Raise JSONDecodeError
  end.

(** The request that [requests.get(uri, **kwargs)] sends. *)
Definition get_request (uri : value) (kwargs : keywords) : request :=
  {| rq_verb := GET;
     rq_uri := uri;
     rq_params := default ∅ (kw_params kwargs);
     rq_json := None;
     rq_timeout := kw_timeout kwargs;
     rq_headers := default ∅ (kw_headers kwargs) |}.

(** The request that [requests.post(uri, json=, timeout=, headers=)] sends. *)
Definition post_request (uri data : value) (timeout : Z * Z)
    (headers : gmap string header_value) : request :=
  {| rq_verb := POST;
     rq_uri := uri;
     rq_params := ∅;
     rq_json := Some data;
     rq_timeout := Some timeout;
     rq_headers := headers |}.

(** The calls a caller can make on a client, with their arguments. *)
Inductive call :=
| Locations
| Systems (system_id search : value)
| GrossDailyKwh (system_id : value) (start_date end_date : temporal)
| IrradiationSources
| PvoutSources
| WindSources
| TemperatureSources
| IrradiationDaily (source : value) (start_date end_date : temporal)
| IrradiationHourly (source : value) (start_date end_date : temporal)
| UtilityFootprint
| UtilRevenues (system_id period_year period_month : value)
| UtilExpenses (system_id period_year period_month : value)
| PvoutDaily (source : value) (start_date end_date : temporal)
| PvoutHourly (source : value) (start_date end_date : temporal)
| WindHourly (source : value) (start_date end_date : temporal)
| TemperatureHourly (source : value) (start_date end_date : temporal).

Section Client.

(** The network the client talks to. *)
Variable srv : server.

(** Sending a request: the exchange is logged, and a transport failure
    surfaces as an exception of the requests library. *)
Definition send (rq : request) : M response :=
  fun log =>
    match srv log rq with
    | Sent res => (Return res, log ++ [(rq, Sent res)])
    | Failed reason => (Raise (RequestException reason), log ++ [(rq, Failed reason)])
    end.

Definition _get (self : PgDataClient) (uri : value) (kwargs : keywords)
  : M response :=
  let kwargs := _set_request_params self kwargs in
  let! res := send (get_request uri kwargs) in
  let! _ := lift (raise_for_status res) in
  ret res.

Definition _get_token (self : PgDataClient) : M value :=
  let uri := PStr (host self +:+ "/api-token-auth/") in
  let headers : gmap string header_value :=
    {[ "Content-Type" := Lit HDR_CONTENT; "Accept" := Lit HDR_ACCEPT ]} in
  let data := PDict [("username", username self); ("password", password self)] in
  let! res := send (post_request uri data TIMEOUT headers) in
  let! res := lift (response_json res) in
  lift (getitem res "token").

Definition __enter__ (self : PgDataClient) : M PgDataClient :=
  if negb (truthy (token self)) then
    let! t := _get_token self in
    ret {| host := host self;
           token := t;
           username := username self;
           password := password self |}
  else ret self.

Definition __exit__ (self : PgDataClient) : M unit := ret tt.

(** The body of [_collect_results] after [results = []]: the
    [while True] loop, one iteration per unit of fuel. *)
Fixpoint collect_loop (fuel : nat) (self : PgDataClient) (uri : value)
    (params : gmap string value) (results : list value) : M (list value) :=
  match fuel with
  | O => lift Running
  | S fuel =>
      let! res := _get self uri
                    {| kw_params := Some params;
                       kw_timeout := None;
                       kw_headers := None |} in
      let! res := lift (response_json res) in
      let! page := lift (getitem res "results") in
      let! results := lift (iadd results page) in
      let! next := lift (getitem res "next") in
      if truthy next then collect_loop fuel self next params results
      else ret results
  end.

Definition _collect_results (fuel : nat) (self : PgDataClient) (uri : value)
    (params : gmap string value) : M (list value) :=
  collect_loop fuel self uri params [].

Definition get_locations (fuel : nat) (self : PgDataClient) : M (list value) :=
  let uri := PStr (host self +:+ "/api/locations") in
  _collect_results fuel self uri ∅.

Definition get_systems (fuel : nat) (self : PgDataClient)
    (system_id search : value) : M (list value) :=
  if negb (truthy (py_and system_id search)) then
    let uri := PStr (host self +:+ "/api/systems") in
    let params : gmap string value := ∅ in
    let params :=
      if truthy system_id then <["system_id" := system_id]> params
      else if truthy search then <["search" := search]> params
      else params in
    _collect_results fuel self uri params
  else raise AssertionError.

Definition get_gross_daily_kwh (fuel : nat) (self : PgDataClient)
    (system_id : value) (start_date end_date : temporal) : M (list value) :=
  let uri := PStr (host self +:+ "/api/gross-kwh-daily") in
  let params : gmap string value :=
    {[ "system_id" := system_id;
       "ts__gte" := PStr (isoformat start_date);
       "ts__lte" := PStr (isoformat end_date) ]} in
  _collect_results fuel self uri params.

Definition get_irradiation_sources (fuel : nat) (self : PgDataClient)
  : M (list value) :=
  let uri := PStr (host self +:+ "/api/irradiation-source") in
  _collect_results fuel self uri ∅.

Definition get_pvout_sources (fuel : nat) (self : PgDataClient)
  : M (list value) :=
  let uri := PStr (host self +:+ "/api/pvout-source") in
  _collect_results fuel self uri ∅.

Definition get_wind_sources (fuel : nat) (self : PgDataClient)
  : M (list value) :=
  let uri := PStr (host self +:+ "/api/wind-source") in
  _collect_results fuel self uri ∅.

Definition get_temperature_sources (fuel : nat) (self : PgDataClient)
  : M (list value) :=
  let uri := PStr (host self +:+ "/api/temperature-source") in
  _collect_results fuel self uri ∅.

(** The shape shared by the daily and hourly series of a source. *)
Definition source_series (path : string) (fuel : nat) (self : PgDataClient)
    (source : value) (start_date end_date : temporal) : M (list value) :=
  let uri := PStr (host self +:+ path) in
  let params : gmap string value :=
    {[ "ts__gte" := PStr (isoformat start_date);
       "ts__lte" := PStr (isoformat end_date);
       "source" := source ]} in
  _collect_results fuel self uri params.

Definition get_irradiation_daily := source_series "/api/irradiation-daily".
Definition get_irradiation_hourly := source_series "/api/irradiation-hourly".
Definition get_pvout_daily := source_series "/api/pvout-daily".
Definition get_pvout_hourly := source_series "/api/pvout-hourly".
Definition get_wind_hourly := source_series "/api/wind-hourly".
Definition get_temperature_hourly := source_series "/api/temperature-hourly".

Definition get_utility_footprint (fuel : nat) (self : PgDataClient)
  : M (list value) :=
  let uri := PStr (host self +:+ "/api/utility-footprint") in
  _collect_results fuel self uri ∅.

(** The shape shared by [get_util_revenues] and [get_util_expenses]. *)
Definition utility_statements (path : string) (fuel : nat)
    (self : PgDataClient) (system_id period_year period_month : value)
  : M (list value) :=
  let params : gmap string value := {[ "system_id" := system_id ]} in
  let params :=
    if negb (is_none period_year) then <["period_year" := period_year]> params
    else params in
  let params :=
    if negb (is_none period_month) then <["period_month" := period_month]> params
    else params in
  let uri := PStr (host self +:+ path) in
  _collect_results fuel self uri params.

Definition get_util_revenues := utility_statements "/api/utility-revenue".
Definition get_util_expenses := utility_statements "/api/utility-expense".

(** One accessor call on the client. *)
Definition invoke (fuel : nat) (self : PgDataClient) (c : call)
  : M (list value) :=
  match c with
  | Locations => get_locations fuel self
  | Systems system_id search => get_systems fuel self system_id search
  | GrossDailyKwh system_id s e => get_gross_daily_kwh fuel self system_id s e
  | IrradiationSources => get_irradiation_sources fuel self
  | PvoutSources => get_pvout_sources fuel self
  | WindSources => get_wind_sources fuel self
  | TemperatureSources => get_temperature_sources fuel self
  | IrradiationDaily source s e => get_irradiation_daily fuel self source s e
  | IrradiationHourly source s e => get_irradiation_hourly fuel self source s e
  | UtilityFootprint => get_utility_footprint fuel self
  | UtilRevenues system_id y m => get_util_revenues fuel self system_id y m
  | UtilExpenses system_id y m => get_util_expenses fuel self system_id y m
  | PvoutDaily source s e => get_pvout_daily fuel self source s e
  | PvoutHourly source s e => get_pvout_hourly fuel self source s e
  | WindHourly source s e => get_wind_hourly fuel self source s e
  | TemperatureHourly source s e => get_temperature_hourly fuel self source s e
  end.

(** A caller's block of accessor calls, one after the other, each with
    its own fuel; the first exception leaves the block. *)
Fixpoint invoke_all (self : PgDataClient) (calls : list (nat * call))
  : M (list (list value)) :=
  match calls with
  | [] => ret []
  | (fuel, c) :: rest =>
      let! r := invoke fuel self c in
      let! rs := invoke_all self rest in
      ret (r :: rs)
  end.

(** [with self as client: body(client)].  [__exit__] runs on every way
    out of the block and returns [None], so an exception of the block
    propagates. *)
Definition with_client {A} (self : PgDataClient) (body : PgDataClient -> M A)
  : M A :=
  let! client := __enter__ self in
  fun log =>
    let '(result, log) := body client log in
    let '(_, log) := __exit__ client log in
    (result, log).

End Client.

(** ** Vocabulary of the statements *)

(** The exchanges that a computation adds to the log it starts from. *)
Definition trace {A} (c : M A) (log : list exchange) : list exchange :=
  drop (length log) (snd (c log)).

(** The request of one turn of the loop in [_collect_results]:
    [self._get(uri, params=params)], after [_set_request_params]. *)
Definition page_request (self : PgDataClient) (uri : value)
    (params : gmap string value) : request :=
  get_request uri
    (_set_request_params self
       {| kw_params := Some params; kw_timeout := None; kw_headers := None |}).

(** What one turn of the loop takes from a response, in the order of the
    source: status, JSON body, [res['results']] appended to the results so
    far, [res['next']]. *)
Definition read_page (results : list value) (res : response)
  : outcome (list value * value) :=
  match raise_for_status res with
  | Raise e => Raise e
  | Running => Running
  | Return _ =>
      match response_json res with
      | Raise e => Raise e
      | Running => Running
      | Return body =>
          match getitem body "results" with
          | Raise e => Raise e
          | Running => Running
          | Return page =>
              match iadd results page with
              | Raise e => Raise e
              | Running => Running
              | Return results =>
                  match getitem body "next" with
                  | Raise e => Raise e
                  | Running => Running
                  | Return next => Return (results, next)
                  end
              end
          end
      end
  end.

(** A page of the wire contract: a response that is no HTTP error and
    whose JSON body is an object with a list under [results] and a value
    under [next]. *)
Record page := { pg_response : response; pg_results : list value; pg_next : value }.

Definition is_page (p : page) : Prop :=
  http_error (status_code (pg_response p)) = false /\
  exists body,
    json (pg_response p) = Some body /\
    getitem body "results" = Return (PList (pg_results p)) /\
    getitem body "next" = Return (pg_next p).

(** The server answers the turns of the loop with the given pages, in
    order: the request for [uri] with the first page, the request for that
    page's [next] with the second, and so on. *)
Fixpoint serves (srv : server) (self : PgDataClient) (params : gmap string value)
    (log : list exchange) (uri : value) (pages : list page) : Prop :=
  match pages with
  | [] => True
  | p :: rest =>
      let rq := page_request self uri params in
      srv log rq = Sent (pg_response p) /\ is_page p /\
      serves srv self params (log ++ [(rq, Sent (pg_response p))]) (pg_next p) rest
  end.

(** The requests of [tr] follow the links: the first goes to [uri], and
    each later one to the [next] of the page answered just before it,
    which Python took as true. *)
Fixpoint follows_links (uri : value) (tr : list exchange) : Prop :=
  match tr with
  | [] => True
  | (rq, answer) :: rest =>
      rq_uri rq = uri /\
      match rest with
      | [] => True
      | _ :: _ =>
          exists res body next,
            answer = Sent res /\ json res = Some body /\
            getitem body "next" = Return next /\ truthy next = true /\
            follows_links next rest
      end
  end.

(** The request of [_get_token]. *)
Definition login_request (self : PgDataClient) : request :=
  post_request (PStr (host self +:+ "/api-token-auth/"))
    (PDict [("username", username self); ("password", password self)])
    TIMEOUT
    {[ "Content-Type" := Lit HDR_CONTENT; "Accept" := Lit HDR_ACCEPT ]}.

(** The headers that [_set_request_params] puts on a request of a client
    when the caller passed none. *)
Definition standard_headers (self : PgDataClient) : gmap string header_value :=
  {[ "Accept" := Lit HDR_ACCEPT;
     "Content-Type" := Lit HDR_CONTENT;
     "Authorization" := TokenOf (token self) ]}.

(** The login POSTs among some exchanges. *)
Definition is_post (x : exchange) : bool :=
  match rq_verb (fst x) with POST => true | GET => false end.

Definition logins (tr : list exchange) : nat := length (List.filter is_post tr).

(** [k] slashes. *)
Fixpoint slashes (k : nat) : string :=
  match k with
  | O => EmptyString
  | S k => String "/" (slashes k)
  end.

(** Some character of the host is not a slash. *)
Definition has_non_slash (h : string) : bool :=
  existsb (fun c => negb (Ascii.eqb c "/")) (list_ascii_of_string h).

(** ** Servers and clients used as examples *)

(** A server that plays a script: the [i]-th request of the session gets
    the [i]-th answer, and the connection fails once the script is over. *)
Definition scripted (script : list http_result) : server :=
  fun log _ => default (Failed "connection refused") (script !! length log).

Definition ok_page (results : list value) (next : value) : response :=
  {| status_code := 200;
     text := "";
     json := Some (PDict [("count", PInt 3); ("next", next); ("results", PList results)]) |}.

Definition systems_uri : value := PStr "https://pgdata.com:443/api/systems".
Definition page_two_uri : value := PStr "https://pgdata.com:443/api/systems?page=2".
Definition page_three_uri : value := PStr "https://pgdata.com:443/api/systems?page=3".

Definition first_page : page :=
  {| pg_response := ok_page [PInt 1; PInt 2] page_two_uri;
     pg_results := [PInt 1; PInt 2];
     pg_next := page_two_uri |}.
Definition second_page : page :=
  {| pg_response := ok_page [PInt 3] page_three_uri;
     pg_results := [PInt 3];
     pg_next := page_three_uri |}.
Definition third_page : page :=
  {| pg_response := ok_page [PInt 4; PInt 5] PNone;
     pg_results := [PInt 4; PInt 5];
     pg_next := PNone |}.

Definition three_pages : server :=
  scripted [Sent (pg_response first_page); Sent (pg_response second_page);
            Sent (pg_response third_page)].

(** A server whose every page links to a further page. *)
Definition endless : server :=
  fun log _ => Sent (ok_page [PInt (Z.of_nat (length log))] page_two_uri).

(** A body without the [next] key. *)
Definition page_without_next : response :=
  {| status_code := 200;
     text := "";
     json := Some (PDict [("results", PList [PInt 1])]) |}.


(** A login answered with an error status and a token in the body. *)
Definition refused_with_token : response :=
  {| status_code := 401;
     text := "";
     json := Some (PDict [("token", PStr "abc")]) |}.

Definition one_system : gmap string value := {[ "system_id" := PStr "A1" ]}.

Definition login_ok : response :=
  {| status_code := 200;
     text := "";
     json := Some (PDict [("token", PStr "abc")]) |}.

(** A login, then two single-page answers. *)
Definition session_server : server :=
  scripted [Sent login_ok; Sent (pg_response third_page);
            Sent (pg_response third_page)].

Definition token_client : PgDataClient :=
  {| host := "https://pgdata.com:443";
     token := PStr "av89DF23nalkfn3";
     username := PNone;
     password := PNone |}.

Definition password_client : PgDataClient :=
  {| host := "https://pgdata.com:443";
     token := PNone;
     username := PStr "alice";
     password := PStr "secret" |}.

(** * Properties *)

(** ** Python truth *)

Lemma truthy_str s : truthy (PStr s) = true <-> s <> "".
Proof.
  simpl. destruct (String.eqb_spec s ""); simpl; split; congruence.
Qed.

Lemma truthy_or_and t u p :
  truthy (py_or t (py_and u p)) = truthy t || (truthy u && truthy p).
Proof.
  unfold py_or, py_and.
  destruct (truthy t) eqn:Ht; [done|].
  destruct (truthy u) eqn:Hu; simpl; [done|]. exact Hu.
Qed.

(** ** Strings and the host *)

Lemma app_cons a s t : String a s +:+ t = String a (s +:+ t).
Proof. reflexivity. Qed.

Lemma snoc_not_empty s c : s +:+ String c "" <> "".
Proof. by destruct s. Qed.

Lemma last_char_snoc s c : last_char (s +:+ String c "") = Some c.
Proof.
  induction s as [|a s IH]; [done|]. simpl.
  destruct (s +:+ String c "") eqn:E; [|done].
  by destruct (snoc_not_empty s c).
Qed.

Lemma drop_last_snoc s c : drop_last (s +:+ String c "") = s.
Proof.
  induction s as [|a s IH]; [done|]. simpl.
  destruct (s +:+ String c "") eqn:E.
  - by destruct (snoc_not_empty s c).
  - by rewrite IH.
Qed.

(** A string is empty or ends with a character. *)
Lemma string_snoc_cases s : s = "" \/ exists s' c, s = s' +:+ String c "".
Proof.
  induction s as [|a s [->|(s' & c & ->)]]; [by left|right..].
  - by exists "", a.
  - by exists (String a s'), c.
Qed.

Lemma length_snoc s c : String.length (s +:+ String c "") = S (String.length s).
Proof. induction s; simpl; congruence. Qed.

(** Induction from the end of a string, the way the loop consumes it. *)
Lemma string_snoc_ind (P : string -> Prop) :
  P "" -> (forall s c, P s -> P (s +:+ String c "")) -> forall s, P s.
Proof.
  intros Hnil Hsnoc s.
  remember (String.length s) as n eqn:Hn. revert s Hn.
  induction n as [|n IH]; intros s Hn.
  - by destruct s.
  - destruct (string_snoc_cases s) as [->|(s' & c & ->)]; [done|].
    apply Hsnoc, IH. rewrite length_snoc in Hn. congruence.
Qed.

Lemma app_snoc s t c : s +:+ (t +:+ String c "") = (s +:+ t) +:+ String c "".
Proof. induction s as [|a s IH]; [done | by rewrite !app_cons, IH]. Qed.

Lemma app_empty_r s : s +:+ "" = s.
Proof. induction s as [|a s IH]; [done | by rewrite app_cons, IH]. Qed.

Lemma slashes_snoc k : slashes k +:+ "/" = slashes (S k).
Proof.
  induction k as [|k IH]; [done|].
  change (slashes (S k)) with (String "/" (slashes k)).
  by rewrite app_cons, IH.
Qed.

(** The last character of a concatenation is that of its second part. *)
Lemma last_char_app s t : t <> "" -> last_char (s +:+ t) = last_char t.
Proof.
  intros Ht. destruct (string_snoc_cases t) as [->|(t' & c & ->)]; [done|].
  by rewrite app_snoc, !last_char_snoc.
Qed.

Lemma last_char_In s c : last_char s = Some c -> In c (list_ascii_of_string s).
Proof.
  induction s as [|a s IH]; [done|]. simpl.
  destruct s; [intros [= ->]; by left|]. intros H. right. by apply IH.
Qed.

Lemma has_non_slash_snoc s c :
  has_non_slash (s +:+ String c "") = has_non_slash s || negb (Ascii.eqb c "/").
Proof.
  unfold has_non_slash. induction s as [|a s IH]; simpl.
  - by rewrite orb_false_r.
  - by rewrite IH, orb_assoc.
Qed.

(** The decimal text of a number has no slash in it and is not empty. *)
Lemma digits_no_slash d : ~ In "/"%char (list_ascii_of_string (NilEmpty.string_of_uint d)).
Proof.
  induction d; simpl; [tauto | intros [H|H]; [discriminate H | done] ..].
Qed.

Lemma str_of_int_last n : str_of_int n <> "" /\ last_char (str_of_int n) <> Some "/"%char.
Proof.
  assert (Hu : forall d, NilZero.string_of_uint d <> "" /\
                ~ In "/"%char (list_ascii_of_string (NilZero.string_of_uint d))).
  { intros d. split.
    - by destruct d.
    - destruct d; try apply (digits_no_slash (_ d)).
      simpl. intros [H|H]; by try discriminate H. }
  unfold str_of_int.
  destruct (Z.to_int n) as [d|d]; destruct (Hu d) as [Hne Hin];
    unfold NilZero.string_of_int.
  - split; [done|]. intros H. by apply last_char_In in H.
  - split; [done|].
    change (String "-" (NilZero.string_of_uint d))
      with ("-" +:+ NilZero.string_of_uint d).
    rewrite last_char_app by done. intros H. by apply last_char_In in H.
Qed.

(** The loop of [__init__], one turn unfolded. *)
Lemma strip_slashes_turn h :
  strip_slashes h =
  match last_char h with
  | None => Raise IndexError
  | Some c => if Ascii.eqb c "/" then strip_slashes (drop_last h) else Return h
  end.
Proof. funelim (strip_slashes h); by rewrite e. Qed.

Lemma strip_slashes_snoc s c :
  strip_slashes (s +:+ String c "") =
  if Ascii.eqb c "/" then strip_slashes s else Return (s +:+ String c "").
Proof. by rewrite strip_slashes_turn, last_char_snoc, drop_last_snoc. Qed.

(** What the loop computes: with a character other than a slash in the
    host, the host without its trailing slashes; IndexError otherwise. *)
Lemma strip_slashes_spec h :
  if has_non_slash h then
    exists h' k c,
      strip_slashes h = Return h' /\ h = h' +:+ slashes k /\
      last_char h' = Some c /\ c <> "/"%char
  else strip_slashes h = Raise IndexError.
Proof.
  induction h as [|s c IH] using string_snoc_ind.
  - by rewrite strip_slashes_turn.
  - rewrite has_non_slash_snoc, strip_slashes_snoc.
    destruct (Ascii.eqb_spec c "/") as [->|Hc]; simpl.
    + rewrite orb_false_r. destruct (has_non_slash s); [|done].
      destruct IH as (h' & k & c & -> & -> & Hlast & Hc).
      exists h', (S k), c. repeat split; try done.
      by rewrite <- app_snoc, slashes_snoc.
    + rewrite orb_true_r. exists (s +:+ String c ""), 0, c.
      repeat split; try done.
      * by rewrite app_empty_r.
      * apply last_char_snoc.
Qed.

(** ** One turn of the pagination loop *)

Section Pagination.

Variable srv : server.

Lemma iadd_app results page :
  iadd results page =
  match iadd [] page with
  | Return items => Return (results ++ items)
  | Raise e => Raise e
  | Running => Running
  end.
Proof. destruct page; reflexivity. Qed.

(** The loop, one turn unfolded. *)
Lemma collect_loop_S fuel self uri params results log :
  collect_loop srv (S fuel) self uri params results log =
  let rq := page_request self uri params in
  match srv log rq with
  | Failed reason =>
      (Raise (RequestException reason), log ++ [(rq, Failed reason)])
  | Sent res =>
      match read_page results res with
      | Return (results', next) =>
          if truthy next
          then collect_loop srv fuel self next params results'
                 (log ++ [(rq, Sent res)])
          else (Return results', log ++ [(rq, Sent res)])
      | Raise e => (Raise e, log ++ [(rq, Sent res)])
      | Running => (Running, log ++ [(rq, Sent res)])
      end
  end.
Proof.
  cbn [collect_loop]. unfold _get, bind, send, lift, ret, read_page.
  fold (page_request self uri params).
  destruct (srv log (page_request self uri params)) as [res|reason]; [|done].
  destruct (raise_for_status res) as [[]|e|]; [|done..].
  destruct (response_json res) as [body|e|]; [|done..].
  destruct (getitem body "results") as [pg|e|]; [|done..].
  destruct (iadd results pg) as [results'|e|]; [|done..].
  destruct (getitem body "next") as [next|e|]; [|done..].
  by destruct (truthy next).
Qed.

(** What [read_page] takes from a page of the wire contract. *)
Lemma read_page_is_page results p :
  is_page p -> read_page results (pg_response p) = Return (results ++ pg_results p, pg_next p).
Proof.
  intros [Hst (body & Hj & Hr & Hn)].
  unfold read_page, raise_for_status, response_json.
  rewrite Hst, Hj, Hr. cbn [iadd]. rewrite Hn. reflexivity.
Qed.


(** A successful turn read [next] off the JSON body of the response. *)
Lemma read_page_next results res results' next :
  read_page results res = Return (results', next) ->
  http_error (status_code res) = false /\
  exists body, json res = Some body /\ getitem body "next" = Return next.
Proof.
  unfold read_page, raise_for_status, response_json.
  destruct (http_error (status_code res)); [done|].
  destruct (json res) as [body|]; [|done].
  destruct (getitem body "results") as [pg| |]; [|done..].
  destruct (iadd results pg) as [r| |]; [|done..].
  destruct (getitem body "next") as [n| |] eqn:Hn; [|done..].
  intros [= <- <-]. eauto.
Qed.

(** Whether a response can be read, and its [next], do not depend on the
    results gathered so far. *)
Lemma read_page_app results res :
  read_page results res =
  match read_page [] res with
  | Return (items, next) => Return (results ++ items, next)
  | Raise e => Raise e
  | Running => Running
  end.
Proof.
  unfold read_page.
  destruct (raise_for_status res); [|done..].
  destruct (response_json res) as [body| |]; [|done..].
  destruct (getitem body "results") as [pg| |]; [|done..].
  rewrite (iadd_app results pg).
  destruct (iadd [] pg) as [items| |]; [|done..].
  by destruct (getitem body "next").
Qed.

(** A body with a list of results and no [next] key cannot be read. *)
Lemma read_page_without_next res body items :
  http_error (status_code res) = false ->
  json res = Some body ->
  getitem body "results" = Return (PList items) ->
  getitem body "next" = Raise (KeyError "next") ->
  read_page [] res = Raise (KeyError "next").
Proof.
  intros Hst Hj Hr Hn. unfold read_page, raise_for_status, response_json.
  by rewrite Hst, Hj, Hr, Hn.
Qed.

(** Everything the later statements need about a run of the loop, by
    one induction on the fuel: the log only grows, by at most one
    exchange per turn; every request is the page request for its URI with
    the parameters of the call; the requests follow the links; an answer
    that cannot be read is fatal, with its own exception; and the loop
    returns only after a page whose [next] is there and false. *)
Lemma collect_loop_run fuel :
  forall self uri params results log,
  exists o tr,
    collect_loop srv fuel self uri params results log = (o, log ++ tr) /\
    length tr <= fuel /\
    Forall (fun x : exchange => x.1 = page_request self (rq_uri x.1) params) tr /\
    follows_links uri tr /\
    (forall i rq res e,
        tr !! i = Some (rq, Sent res) -> read_page [] res = Raise e ->
        o = Raise e) /\
    (forall r, o = Return r ->
        exists tr0 rq res body next,
          tr = tr0 ++ [(rq, Sent res)] /\ json res = Some body /\
          getitem body "next" = Return next /\ truthy next = false).
Proof.
  induction fuel as [|fuel IH]; intros self uri params results log.
  { exists Running, []. rewrite app_nil_r. by repeat split. }
  rewrite collect_loop_S. cbv zeta.
  set (rq := page_request self uri params).
  destruct (srv log rq) as [res|reason] eqn:Hsrv.
  2:{ exists (Raise (RequestException reason)), [(rq, Failed reason)].
      repeat split; try done.
      - simpl. lia.
      - by repeat constructor.
      - by intros [|i] rq' res' e Hi Hbad. }
  assert (Hhead : forall i rq' res' e,
             [(rq, Sent res)] !! i = Some (rq', Sent res') ->
             read_page [] res' = Raise e ->
             read_page results res = Raise e).
  { intros [|i] rq' res' e Hi Hbad; [|done].
    injection Hi as <- <-. by rewrite read_page_app, Hbad. }
  destruct (read_page results res) as [[results' next]|e|] eqn:Hrp.
  - destruct (read_page_next _ _ _ _ Hrp) as (Hok & body & Hjson & Hnext).
    destruct (truthy next) eqn:Ht.
    + destruct (IH self next params results' (log ++ [(rq, Sent res)]))
        as (o & tr & Heq & Hlen & Hall & Hlinks & Herr & Hret).
      exists o, ((rq, Sent res) :: tr). repeat split.
      * by rewrite Heq, <- app_assoc.
      * simpl. lia.
      * by constructor.
      * destruct tr as [|x tr]; [done|]. by exists res, body, next.
      * intros [|i] rq' res' e Hi Hbad; simpl in Hi; [|by eapply Herr].
        by specialize (Hhead 0 rq' res' e Hi Hbad).
      * intros r ->. destruct (Hret r eq_refl) as (tr0 & rq' & res' & H).
        exists ((rq, Sent res) :: tr0), rq', res'.
        destruct H as (body' & next' & -> & H). by exists body', next'.
    + exists (Return results'), [(rq, Sent res)]. repeat split; try done.
      * simpl. lia.
      * by repeat constructor.
      * intros i rq' res' e Hi Hbad.
        by specialize (Hhead i rq' res' e Hi Hbad).
      * intros r _. by exists [], rq, res, body, next.
  - exists (Raise e), [(rq, Sent res)]. repeat split; try done.
    + simpl. lia.
    + by repeat constructor.
    + intros i rq' res' e' Hi Hbad.
      specialize (Hhead i rq' res' e' Hi Hbad). congruence.
  - exists Running, [(rq, Sent res)]. repeat split; try done.
    + simpl. lia.
    + by repeat constructor.
    + intros i rq' res' e' Hi Hbad.
      by specialize (Hhead i rq' res' e' Hi Hbad).
Qed.

(** The exchanges added are the trace. *)
Lemma trace_of_run {A} (c : M A) log o tr :
  c log = (o, log ++ tr) -> trace c log = tr.
Proof. intros H. unfold trace. rewrite H. simpl. by rewrite drop_app_length. Qed.

End Pagination.

(** ** The paginator *)

Section Paginator.

Variable srv : server.

(** Pages served in order are all fetched, and the loop returns their
    results appended to what it had. *)
Lemma collect_pages pages :
  forall last self params results log uri fuel,
  serves srv self params log uri (pages ++ [last]) ->
  Forall (fun p => truthy (pg_next p) = true) pages ->
  truthy (pg_next last) = false ->
  length pages < fuel ->
  exists tr,
    collect_loop srv fuel self uri params results log =
      (Return (results ++ concat (pg_results <$> pages ++ [last])), log ++ tr) /\
    tr.*2 = (fun p => Sent (pg_response p)) <$> pages ++ [last].
Proof.
  induction pages as [|p pages IH];
    intros last self params results log uri [|fuel] Hserves Hnext Hlast Hfuel;
    try (simpl in Hfuel; lia);
    rewrite collect_loop_S; cbv zeta;
    destruct Hserves as (Hsrv & Hpage & Hrest); rewrite Hsrv;
    rewrite (read_page_is_page _ _ Hpage).
  - rewrite Hlast. eexists [_]. split; [simpl; by rewrite app_nil_r | done].
  - apply Forall_cons in Hnext as [Hp Hnext]. rewrite Hp.
    destruct (IH last self params (results ++ pg_results p) _ _ fuel Hrest Hnext Hlast)
      as (tr & Heq & Htr); [simpl in Hfuel; lia|].
    eexists (_ :: tr). rewrite Heq. split.
    + simpl. by rewrite <- !app_assoc.
    + by rewrite fmap_cons, Htr.
Qed.

(** A server that links every page to a further one keeps the loop
    running: every unit of fuel is spent on a request. *)
Lemma collect_endless fuel :
  (forall log rq, exists p,
      srv log rq = Sent (pg_response p) /\ is_page p /\ truthy (pg_next p) = true) ->
  forall self uri params results log,
  exists tr,
    collect_loop srv fuel self uri params results log = (Running, log ++ tr) /\
    length tr = fuel.
Proof.
  intros Hsrv. induction fuel as [|fuel IH]; intros self uri params results log.
  { exists []. by rewrite app_nil_r. }
  rewrite collect_loop_S. cbv zeta.
  destruct (Hsrv log (page_request self uri params)) as (p & -> & Hpage & Hnext).
  rewrite (read_page_is_page _ _ Hpage), Hnext.
  destruct (IH self (pg_next p) params (results ++ pg_results p)
              (log ++ [(page_request self uri params, Sent (pg_response p))]))
    as (tr & -> & Hlen).
  eexists (_ :: tr). rewrite <- app_assoc. split; [done|]. simpl. by rewrite Hlen.
Qed.

(** Every request of a paginator call carries the parameters of the
    call. *)
Lemma requests_carry_params fuel self uri params log :
  exists o tr,
    _collect_results srv fuel self uri params log = (o, log ++ tr) /\
    forall i rq answer, tr !! i = Some (rq, answer) -> rq_params rq = params.
Proof.
  destruct (collect_loop_run srv fuel self uri params [] log)
    as (o & tr & Heq & _ & Hall & _).
  exists o, tr. split; [done|].
  intros i rq answer Hi.
  apply (Forall_lookup_1 _ _ _ _ Hall) in Hi. simpl in Hi. by rewrite Hi.
Qed.

(** C1, as the code has it: the loop never clears the query parameters.
    Every request of [_collect_results] carries the parameters the call
    was given; the first request goes to [uri] and each later one to the
    [next] link of the page before it. *)
Theorem next_request_resends_params fuel self uri params log :
  exists o tr,
    _collect_results srv fuel self uri params log = (o, log ++ tr) /\
    (forall i rq answer, tr !! i = Some (rq, answer) ->
        rq_verb rq = GET /\ rq_params rq = params) /\
    follows_links uri tr.
Proof.
  destruct (collect_loop_run srv fuel self uri params [] log)
    as (o & tr & Heq & _ & Hall & Hlinks & _).
  exists o, tr. split; [done|]. split; [|done].
  intros i rq answer Hi.
  apply (Forall_lookup_1 _ _ _ _ Hall) in Hi. simpl in Hi. by rewrite Hi.
Qed.

(** C4: when the server answers with n pages, the first n-1 with a
    [next] link and the last with [next: null], the paginator returns
    the concatenation of the pages' results in order and issues n
    requests, one answered by each page.  A [next] link is a value that
    the test [if res['next']] takes as true, as every non-empty string
    is ([truthy_str]). *)
Theorem collect_concatenates_pages self uri params log pages last fuel :
  serves srv self params log uri (pages ++ [last]) ->
  Forall (fun p => truthy (pg_next p) = true) pages ->
  pg_next last = PNone ->
  length pages < fuel ->
  exists tr,
    _collect_results srv fuel self uri params log =
      (Return (concat (pg_results <$> pages ++ [last])), log ++ tr) /\
    tr.*2 = (fun p => Sent (pg_response p)) <$> pages ++ [last] /\
    length tr = S (length pages).
Proof.
  intros Hserves Hnext Hlast Hfuel.
  destruct (collect_pages pages last self params [] log uri fuel)
    as (tr & Heq & Htr); try done.
  { by rewrite Hlast. }
  exists tr. repeat split; try done.
  apply (f_equal length) in Htr.
  rewrite !length_fmap, length_app in Htr.
  transitivity (length pages + length [last]); [exact Htr | simpl; lia].
Qed.

(** C5, as the code has it: the loop returns exactly when the server
    signals exhaustion with a [next] that is there and false (null).
    Pages served up to such a page make it return; it returns only after
    such a page; a page without the [next] key ends the call with
    KeyError; and a server whose every page has a true [next] keeps it
    running for any fuel, one request per unit. *)
Theorem collect_returns_iff_exhausted self uri params log :
  (forall pages last fuel,
      serves srv self params log uri (pages ++ [last]) ->
      Forall (fun p => truthy (pg_next p) = true) pages ->
      truthy (pg_next last) = false ->
      length pages < fuel ->
      exists results log',
        _collect_results srv fuel self uri params log = (Return results, log')) /\
  (forall fuel results log',
      _collect_results srv fuel self uri params log = (Return results, log') ->
      exists tr rq res body next,
        log' = log ++ tr ++ [(rq, Sent res)] /\ json res = Some body /\
        getitem body "next" = Return next /\ truthy next = false) /\
  (forall fuel i rq res body items,
      trace (_collect_results srv fuel self uri params) log !! i =
        Some (rq, Sent res) ->
      http_error (status_code res) = false ->
      json res = Some body ->
      getitem body "results" = Return (PList items) ->
      getitem body "next" = Raise (KeyError "next") ->
      fst (_collect_results srv fuel self uri params log) =
        Raise (KeyError "next")) /\
  ((forall log' rq, exists p,
       srv log' rq = Sent (pg_response p) /\ is_page p /\
       truthy (pg_next p) = true) ->
   forall fuel, exists tr,
     _collect_results srv fuel self uri params log = (Running, log ++ tr) /\
     length tr = fuel).
Proof.
  split; [|split; [|split]].
  - intros pages last fuel Hserves Hnext Hlast Hfuel.
    destruct (collect_pages pages last self params [] log uri fuel)
      as (tr & Heq & _); eauto.
  - intros fuel results log' Hrun.
    destruct (collect_loop_run srv fuel self uri params [] log)
      as (o & tr & Heq & _ & _ & _ & _ & Hret).
    unfold _collect_results in Hrun. rewrite Heq in Hrun.
    injection Hrun as -> <-.
    destruct (Hret results eq_refl) as (tr0 & rq & res & body & next & -> & H).
    by exists tr0, rq, res, body, next.
  - intros fuel i rq res body items Hi Hst Hj Hr Hn.
    destruct (collect_loop_run srv fuel self uri params [] log)
      as (o & tr & Heq & _ & _ & _ & Herr & _).
    unfold _collect_results in *.
    rewrite (trace_of_run _ _ _ _ Heq) in Hi. rewrite Heq. simpl.
    eapply Herr; [exact Hi | by eapply read_page_without_next].
  - intros Hsrv fuel. by apply collect_endless.
Qed.

(** Every accessor is the paginator on some URI and parameters, unless
    its assertion fails first. *)
Lemma invoke_cases fuel self c :
  invoke srv fuel self c = raise AssertionError \/
  exists uri params, invoke srv fuel self c = _collect_results srv fuel self uri params.
Proof.
  destruct c; simpl; try (right; eexists _, _; reflexivity).
  unfold get_systems.
  destruct (negb (truthy (py_and system_id search))); [|by left].
  right. eexists _, _. reflexivity.
Qed.

(** The exchanges of an accessor call: the log grows by GET requests. *)
Lemma invoke_run fuel self c log :
  exists o tr,
    invoke srv fuel self c log = (o, log ++ tr) /\
    Forall (fun x : exchange => rq_verb x.1 = GET) tr.
Proof.
  destruct (invoke_cases fuel self c) as [->|(uri & params & ->)].
  - exists (Raise AssertionError), []. by rewrite app_nil_r.
  - destruct (collect_loop_run srv fuel self uri params [] log)
      as (o & tr & Heq & _ & Hall & _).
    exists o, tr. split; [done|].
    eapply Forall_impl; [exact Hall|]. intros x Hx. simpl in Hx. by rewrite Hx.
Qed.


End Paginator.

(** C1, as the spec words it, fails: the first page of [three_pages] has a
    [next] link, the next request goes to that link, and it carries the
    system filter of the first request again. *)
Lemma params_kept_after_next_link :
  fst (_collect_results three_pages 5 token_client systems_uri one_system []) =
    Return [PInt 1; PInt 2; PInt 3; PInt 4; PInt 5] /\
  map (fun x : exchange => rq_uri x.1)
      (snd (_collect_results three_pages 5 token_client systems_uri one_system [])) =
    [systems_uri; page_two_uri; page_three_uri] /\
  map (fun x : exchange => rq_params x.1)
      (snd (_collect_results three_pages 5 token_client systems_uri one_system [])) =
    [one_system; one_system; one_system] /\
  one_system <> ∅.
Proof.
  repeat split; try (vm_compute; reflexivity).
  intros H. apply (f_equal (fun m : gmap string value => m !! "system_id")) in H.
  vm_compute in H. discriminate.
Qed.

(** The script of [three_pages] serves its three pages to a systems
    query. *)
Lemma three_pages_served :
  serves three_pages token_client one_system [] systems_uri
    ([first_page; second_page] ++ [third_page]).
Proof. simpl. repeat split; try reflexivity; eexists; repeat split; reflexivity. Defined.

(** Three pages, three requests, five results in order. *)
Lemma collect_concatenates_pages_witness :
  exists tr,
    _collect_results three_pages 3 token_client systems_uri one_system [] =
      (Return (concat (pg_results <$> [first_page; second_page] ++ [third_page])),
       [] ++ tr) /\
    tr.*2 = (fun p => Sent (pg_response p)) <$> [first_page; second_page] ++ [third_page] /\
    length tr = 3.
Proof.
  apply (collect_concatenates_pages three_pages token_client systems_uri
           one_system [] [first_page; second_page] third_page 3).
  - exact three_pages_served.
  - repeat constructor.
  - reflexivity.
  - simpl. lia.
Defined.

(** C5, as the spec words it, fails for an absent [next]: a page whose
    body has no [next] key ends the call with KeyError, after its results
    were read, and nothing is returned. *)
Lemma absent_next_raises_key_error :
  json page_without_next = Some (PDict [("results", PList [PInt 1])]) /\
  _collect_results (scripted [Sent page_without_next]) 3 token_client systems_uri ∅ [] =
    (Raise (KeyError "next"),
     [(page_request token_client systems_uri ∅, Sent page_without_next)]).
Proof. split; reflexivity. Qed.

(** Every page of [endless] links to a further page. *)
Lemma endless_links log rq :
  exists p, endless log rq = Sent (pg_response p) /\ is_page p /\ truthy (pg_next p) = true.
Proof.
  exists {| pg_response := ok_page [PInt (Z.of_nat (length log))] page_two_uri;
            pg_results := [PInt (Z.of_nat (length log))];
            pg_next := page_two_uri |}.
  split; [reflexivity|]. split; [|reflexivity].
  split; [reflexivity|]. eexists. repeat split; reflexivity.
Defined.

(** The loop returns on [three_pages], raises KeyError on a page without
    [next], and is still running on [endless] after seven requests. *)
Lemma collect_returns_iff_exhausted_witness :
  (exists results log',
      _collect_results three_pages 3 token_client systems_uri one_system [] =
        (Return results, log')) /\
  fst (_collect_results (scripted [Sent page_without_next]) 3 token_client
         systems_uri one_system []) = Raise (KeyError "next") /\
  (exists tr,
      _collect_results endless 7 token_client systems_uri one_system [] =
        (Running, [] ++ tr) /\ length tr = 7).
Proof.
  split.
  - apply (proj1 (collect_returns_iff_exhausted three_pages token_client
                    systems_uri one_system [])
             [first_page; second_page] third_page 3).
    + exact three_pages_served.
    + repeat constructor.
    + reflexivity.
    + simpl. lia.
  - split.
    + apply (proj1 (proj2 (proj2 (collect_returns_iff_exhausted
                                    (scripted [Sent page_without_next])
                                    token_client systems_uri one_system [])))
               3 0 (page_request token_client systems_uri one_system)
               page_without_next (PDict [("results", PList [PInt 1])]) [PInt 1]);
        reflexivity.
    + apply (proj2 (proj2 (proj2 (collect_returns_iff_exhausted endless token_client
                                    systems_uri one_system [])))).
      exact endless_links.
Defined.


(** ** Construction *)

(** C2, as the spec words it, fails: a token together with a username and
    a password is accepted, and the client is built. *)
Lemma token_and_password_accepted :
  __init__ "https://pgdata.com/" 443 (PStr "av89DF23nalkfn3") (PStr "alice")
    (PStr "secret") =
  Return {| host := "https://pgdata.com:443";
            token := PStr "av89DF23nalkfn3";
            username := PStr "alice";
            password := PStr "secret" |}.
Proof. reflexivity. Qed.

(** C2, as the code has it: construction fails with AssertionError, and
    touches no network, exactly when no token is supplied and the username
    or the password is missing; a token supplied together with a username
    and a password is accepted and kept. *)
Theorem credentials_checked_at_construction hostname port tok user pw :
  (__init__ hostname port tok user pw = Raise AssertionError <->
   truthy tok = false /\ (truthy user = false \/ truthy pw = false)) /\
  (truthy tok = true -> truthy user = true -> truthy pw = true ->
   has_non_slash hostname = true ->
   exists self, __init__ hostname port tok user pw = Return self /\ token self = tok).
Proof.
  unfold __init__. rewrite truthy_or_and.
  pose proof (strip_slashes_spec hostname) as Hstrip.
  split; [split|].
  - destruct (truthy tok), (truthy user), (truthy pw); simpl; try done;
      try (intros _; split; [done|]; by (left + right)).
    all: destruct (has_non_slash hostname);
      [destruct Hstrip as (h & k & c & -> & _) | rewrite Hstrip]; done.
  - by intros [-> [-> | ->]]; simpl; rewrite ?andb_false_r.
  - intros -> -> -> Hhost. rewrite Hhost in Hstrip.
    destruct Hstrip as (h & k & c & -> & _). simpl. eauto.
Qed.

(** C10: with credentials that pass the assertion, a host with a
    character other than a slash is stored without its trailing slashes,
    followed by a colon and the port, and the stored base does not end in a
    slash; a host that is empty or all slashes raises IndexError. *)
Theorem host_normalization hostname port tok user pw :
  truthy (py_or tok (py_and user pw)) = true ->
  (has_non_slash hostname = true ->
   exists h k c self,
     __init__ hostname port tok user pw = Return self /\
     host self = h +:+ ":" +:+ str_of_int port /\
     hostname = h +:+ slashes k /\
     last_char h = Some c /\ c <> "/"%char /\
     last_char (host self) <> Some "/"%char) /\
  (has_non_slash hostname = false ->
   __init__ hostname port tok user pw = Raise IndexError).
Proof.
  intros Hcred. unfold __init__. rewrite Hcred.
  pose proof (strip_slashes_spec hostname) as Hstrip.
  split; intros Hhost; rewrite Hhost in Hstrip.
  - destruct Hstrip as (h & k & c & -> & -> & Hlast & Hc).
    eexists h, k, c, _. repeat split; try done. simpl.
    destruct (str_of_int_last port) as [Hne Hport].
    by rewrite !last_char_app.
  - by rewrite Hstrip.
Qed.

(** Two trailing slashes are stripped; a host of slashes alone raises
    IndexError. *)
Lemma host_normalization_witness :
  (exists h k c self,
      __init__ "https://pgdata.com//" 443 (PStr "av89DF23nalkfn3") PNone PNone =
        Return self /\
      host self = h +:+ ":" +:+ str_of_int 443 /\
      "https://pgdata.com//" = h +:+ slashes k /\
      last_char h = Some c /\ c <> "/"%char /\
      last_char (host self) <> Some "/"%char) /\
  __init__ "//" 443 (PStr "av89DF23nalkfn3") PNone PNone = Raise IndexError.
Proof.
  split.
  - apply (proj1 (host_normalization "https://pgdata.com//" 443
                    (PStr "av89DF23nalkfn3") PNone PNone eq_refl)).
    reflexivity.
  - apply (proj2 (host_normalization "//" 443 (PStr "av89DF23nalkfn3")
                    PNone PNone eq_refl)).
    reflexivity.
Defined.

(** ** The session *)

Section Session.

Variable srv : server.

Lemma logins_app tr1 tr2 : logins (tr1 ++ tr2) = logins tr1 + logins tr2.
Proof. unfold logins. by rewrite List.filter_app, length_app. Qed.

Lemma logins_get tr :
  Forall (fun x : exchange => rq_verb x.1 = GET) tr -> logins tr = 0.
Proof.
  induction 1 as [|x tr Hx _ IH]; [done|].
  unfold logins, is_post in *. simpl. by rewrite Hx.
Qed.

(** [_get_token] sends the login request, once, however it ends. *)
Lemma get_token_run self log :
  exists o,
    _get_token srv self log =
      (o, log ++ [(login_request self, srv log (login_request self))]).
Proof.
  unfold _get_token, bind, send, lift. fold (login_request self).
  destruct (srv log (login_request self)) as [res|reason]; [|by eexists].
  destruct (response_json res) as [body| |]; [|by eexists..].
  by eexists.
Qed.

(** Entering with a token does nothing; entering without one is one
    login. *)
Lemma enter_run self log :
  if truthy (token self)
  then __enter__ srv self log = (Return self, log)
  else exists o,
      __enter__ srv self log =
        (o, log ++ [(login_request self, srv log (login_request self))]).
Proof.
  unfold __enter__. destruct (truthy (token self)); [done|]. simpl.
  unfold bind. destruct (get_token_run self log) as [o ->].
  destruct o; by eexists.
Qed.

(** A block of accessor calls only adds GET requests to the log. *)
Lemma invoke_all_run self calls :
  forall log, exists o tr,
    invoke_all srv self calls log = (o, log ++ tr) /\
    Forall (fun x : exchange => rq_verb x.1 = GET) tr.
Proof.
  induction calls as [|[fuel c] calls IH]; intros log.
  { exists (Return []), []. by rewrite app_nil_r. }
  cbn [invoke_all]. unfold bind.
  destruct (invoke_run srv fuel self c log) as (o & tr & -> & Htr).
  destruct o as [r|e|]; [|by eexists _, tr..].
  destruct (IH (log ++ tr)) as (o' & tr' & -> & Htr').
  rewrite <- app_assoc.
  destruct o'; eexists _, (tr ++ tr'); (split; [done | by apply Forall_app]).
Qed.

(** The constructor stores the credentials it is given. *)
Lemma init_fields hostname port tok user pw self :
  __init__ hostname port tok user pw = Return self ->
  token self = tok /\ username self = user /\ password self = pw.
Proof.
  unfold __init__.
  destruct (truthy _); [|done].
  destruct (strip_slashes hostname); [|done..].
  by intros [= <-].
Qed.

(** C6: a client built with a username and a password and no token logs
    in once when the session is entered, and the accessor calls of the
    session, however many, add no login; a client built with a token
    never logs in, and entering leaves the client and its token as they
    were. *)
Theorem one_login_per_session hostname port tok user pw self calls log :
  __init__ hostname port tok user pw = Return self ->
  (truthy tok = false ->
   logins (trace (with_client srv self
                    (fun client => invoke_all srv client calls)) log) = 1) /\
  (truthy tok = true ->
   logins (trace (with_client srv self
                    (fun client => invoke_all srv client calls)) log) = 0 /\
   __enter__ srv self log = (Return self, log) /\
   token self = tok).
Proof.
  intros Hinit. destruct (init_fields _ _ _ _ _ _ Hinit) as (Htok & _).
  pose proof (enter_run self log) as Henter. rewrite Htok in Henter.
  split; intros Ht; rewrite Ht in Henter.
  - destruct Henter as [o Henter].
    set (x := (login_request self, srv log (login_request self))) in *.
    assert (exists o' tr,
               with_client srv self (fun client => invoke_all srv client calls) log
               = (o', log ++ x :: tr) /\
               Forall (fun x : exchange => rq_verb x.1 = GET) tr)
      as (o' & tr & Hrun & Htr).
    { unfold with_client, bind. rewrite Henter.
      destruct o as [client|e|]; [|by eexists _, []..].
      destruct (invoke_all_run client calls (log ++ [x])) as (o' & tr & -> & Htr).
      exists o', tr. by rewrite <- app_assoc. }
    rewrite (trace_of_run _ _ _ _ Hrun).
    change (x :: tr) with ([x] ++ tr). rewrite logins_app, (logins_get tr Htr).
    reflexivity.
  - split; [|done].
    assert (exists o' tr,
               with_client srv self (fun client => invoke_all srv client calls) log
               = (o', log ++ tr) /\
               Forall (fun x : exchange => rq_verb x.1 = GET) tr)
      as (o' & tr & Hrun & Htr).
    { unfold with_client, bind. rewrite Henter.
      destruct (invoke_all_run self calls log) as (o' & tr & -> & Htr).
      by exists o', tr. }
    rewrite (trace_of_run _ _ _ _ Hrun). by apply logins_get.
Qed.

(** The ways a login fails: a transport failure, a body that is not
    JSON, a body without [token].  The exception leaves [__enter__]
    before the assignment to [self.token]. *)
Lemma login_failures self log :
  truthy (token self) = false ->
  (forall reason, srv log (login_request self) = Failed reason ->
      fst (__enter__ srv self log) = Raise (RequestException reason)) /\
  (forall res, srv log (login_request self) = Sent res -> json res = None ->
      fst (__enter__ srv self log) = Raise JSONDecodeError) /\
  (forall res body e, srv log (login_request self) = Sent res ->
      json res = Some body -> getitem body "token" = Raise e ->
      fst (__enter__ srv self log) = Raise e).
Proof.
  intros Ht. unfold __enter__, _get_token, bind, send, lift, response_json.
  fold (login_request self). rewrite Ht. simpl.
  repeat split.
  - by intros reason ->.
  - by intros res -> ->.
  - by intros res body e -> -> ->.
Qed.

End Session.

(** C3 at the failing input: the login is answered with status 401 and a
    body that carries a token.  [_get_token] does not look at the status,
    as [_get] does: the session is entered with that token. *)
Lemma login_ignores_error_status :
  http_error (status_code refused_with_token) = true /\
  __enter__ (scripted [Sent refused_with_token]) password_client [] =
    (Return {| host := "https://pgdata.com:443";
               token := PStr "abc";
               username := PStr "alice";
               password := PStr "secret" |},
     [(login_request password_client, Sent refused_with_token)]).
Proof. split; reflexivity. Qed.

(** Two accessor calls in a session: one login with a password, none
    with a token. *)
Lemma one_login_per_session_witness :
  logins (trace (with_client session_server password_client
                   (fun client => invoke_all session_server client
                                    [(3, Locations); (3, PvoutSources)])) []) = 1 /\
  (logins (trace (with_client session_server token_client
                    (fun client => invoke_all session_server client
                                     [(3, Locations); (3, PvoutSources)])) []) = 0 /\
   __enter__ session_server token_client [] = (Return token_client, []) /\
   token token_client = PStr "av89DF23nalkfn3").
Proof.
  split.
  - apply (proj1 (one_login_per_session session_server "https://pgdata.com/" 443
                    PNone (PStr "alice") (PStr "secret") password_client
                    [(3, Locations); (3, PvoutSources)] [] eq_refl)).
    reflexivity.
  - apply (proj2 (one_login_per_session session_server "https://pgdata.com/" 443
                    (PStr "av89DF23nalkfn3") PNone PNone token_client
                    [(3, Locations); (3, PvoutSources)] [] eq_refl)).
    reflexivity.
Defined.

(** ** The accessors *)

Section Accessors.

Variable srv : server.

(** C7: with both [system_id] and [search] supplied, [get_systems] fails
    with AssertionError and the log is left as it was; with one of them
    supplied it is the paginator on [/api/systems] with that filter
    alone, and with neither, with no filter.  An argument is supplied
    when Python takes it as true. *)
Theorem systems_filters_exclusive fuel self system_id search log :
  (truthy system_id = true -> truthy search = true ->
   get_systems srv fuel self system_id search log = (Raise AssertionError, log)) /\
  (truthy system_id = true -> truthy search = false ->
   get_systems srv fuel self system_id search =
     _collect_results srv fuel self (PStr (host self +:+ "/api/systems"))
       {[ "system_id" := system_id ]}) /\
  (truthy system_id = false -> truthy search = true ->
   get_systems srv fuel self system_id search =
     _collect_results srv fuel self (PStr (host self +:+ "/api/systems"))
       {[ "search" := search ]}) /\
  (truthy system_id = false -> truthy search = false ->
   get_systems srv fuel self system_id search =
     _collect_results srv fuel self (PStr (host self +:+ "/api/systems")) ∅).
Proof.
  unfold get_systems, py_and.
  repeat split; intros Hid Hsearch; rewrite Hid; simpl;
    rewrite ?Hid, ?Hsearch; simpl; by rewrite ?insert_empty.
Qed.

(** C9: [get_gross_daily_kwh] is the paginator on [/api/gross-kwh-daily]
    with a mapping whose keys are system_id, ts__gte and ts__lte, the
    dates under the last two in ISO text; every request of the call
    carries this mapping. *)
Theorem gross_daily_kwh_params fuel self system_id start_date end_date log :
  exists params : gmap string value,
    get_gross_daily_kwh srv fuel self system_id start_date end_date =
      _collect_results srv fuel self (PStr (host self +:+ "/api/gross-kwh-daily"))
        params /\
    dom params = {[ "system_id"; "ts__gte"; "ts__lte" ]} /\
    params !! "system_id" = Some system_id /\
    params !! "ts__gte" = Some (PStr (isoformat start_date)) /\
    params !! "ts__lte" = Some (PStr (isoformat end_date)) /\
    (forall i rq answer,
        trace (get_gross_daily_kwh srv fuel self system_id start_date end_date) log
          !! i = Some (rq, answer) ->
        rq_params rq = params) /\
    isoformat (Date {| year := 2023; month := 1; day := 1 |}) = "2023-01-01" /\
    isoformat (Date {| year := 2023; month := 1; day := 31 |}) = "2023-01-31".
Proof.
  eexists. split; [reflexivity|].
  repeat split; try reflexivity.
  intros i rq answer Hi. unfold get_gross_daily_kwh in Hi.
    destruct (requests_carry_params srv fuel self
                (PStr (host self +:+ "/api/gross-kwh-daily"))
                {[ "system_id" := system_id;
                   "ts__gte" := PStr (isoformat start_date);
                   "ts__lte" := PStr (isoformat end_date) ]} log)
      as (o & tr & Heq & Hall).
    rewrite (trace_of_run _ _ _ _ Heq) in Hi. by eapply Hall.
Qed.

End Accessors.

(** The four ways of calling [get_systems]. *)
Lemma systems_filters_exclusive_witness :
  get_systems three_pages 3 token_client (PStr "A1") (PStr "roof") [] =
    (Raise AssertionError, []) /\
  get_systems three_pages 3 token_client (PStr "A1") PNone =
    _collect_results three_pages 3 token_client
      (PStr (host token_client +:+ "/api/systems")) {[ "system_id" := PStr "A1" ]} /\
  get_systems three_pages 3 token_client PNone (PStr "roof") =
    _collect_results three_pages 3 token_client
      (PStr (host token_client +:+ "/api/systems")) {[ "search" := PStr "roof" ]} /\
  get_systems three_pages 3 token_client PNone PNone =
    _collect_results three_pages 3 token_client
      (PStr (host token_client +:+ "/api/systems")) ∅.
Proof.
  split; [|split; [|split]].
  - exact (proj1 (systems_filters_exclusive three_pages 3 token_client
                    (PStr "A1") (PStr "roof") []) eq_refl eq_refl).
  - exact (proj1 (proj2 (systems_filters_exclusive three_pages 3 token_client
                           (PStr "A1") PNone [])) eq_refl eq_refl).
  - exact (proj1 (proj2 (proj2 (systems_filters_exclusive three_pages 3
                                  token_client PNone (PStr "roof") [])))
             eq_refl eq_refl).
  - exact (proj2 (proj2 (proj2 (systems_filters_exclusive three_pages 3
                                  token_client PNone PNone [])))
             eq_refl eq_refl).
Defined.

(** A username without a password is refused; a token with a username
    and a password is accepted. *)
Lemma credentials_checked_at_construction_witness :
  __init__ "https://pgdata.com/" 443 PNone (PStr "alice") PNone =
    Raise AssertionError /\
  exists self,
    __init__ "https://pgdata.com/" 443 (PStr "av89DF23nalkfn3") (PStr "alice")
      (PStr "secret") = Return self /\
    token self = PStr "av89DF23nalkfn3".
Proof.
  split.
  - apply (proj1 (credentials_checked_at_construction "https://pgdata.com/" 443
                    PNone (PStr "alice") PNone)).
    split; [reflexivity | right; reflexivity].
  - apply (proj2 (credentials_checked_at_construction "https://pgdata.com/" 443
                    (PStr "av89DF23nalkfn3") (PStr "alice") (PStr "secret")));
      reflexivity.
Defined.


(** * Further properties of the client *)

(** ** The request executor *)


Section Executor.

Variable srv : server.

(** The requests of an accessor call are page requests of the client. *)
Lemma invoke_requests fuel self c log :
  exists o tr,
    invoke srv fuel self c log = (o, log ++ tr) /\
    Forall (fun x : exchange =>
              x.1 = page_request self (rq_uri x.1) (rq_params x.1)) tr /\
    (forall i rq res e,
        tr !! i = Some (rq, Sent res) -> read_page [] res = Raise e ->
        o = Raise e).
Proof.
  destruct (invoke_cases srv fuel self c) as [->|(uri & params & ->)].
  - exists (Raise AssertionError), []. by rewrite app_nil_r.
  - destruct (collect_loop_run srv fuel self uri params [] log)
      as (o & tr & Heq & _ & Hall & _ & Herr & _).
    exists o, tr. split; [done|]. split; [|done].
    eapply Forall_impl; [exact Hall|]. intros x Hx. simpl in *.
    rewrite Hx at 1. by rewrite Hx.
Qed.

(** A transport failure ends the loop with the exception of the HTTP
    library. *)
Lemma collect_loop_failed fuel :
  forall self uri params results log,
  exists o tr,
    collect_loop srv fuel self uri params results log = (o, log ++ tr) /\
    forall i rq reason,
      tr !! i = Some (rq, Failed reason) -> o = Raise (RequestException reason).
Proof.
  induction fuel as [|fuel IH]; intros self uri params results log.
  { exists Running, []. by rewrite app_nil_r. }
  rewrite collect_loop_S. cbv zeta.
  set (rq := page_request self uri params).
  destruct (srv log rq) as [res|reason].
  2:{ exists (Raise (RequestException reason)), [(rq, Failed reason)].
      split; [done|]. intros [|i] rq' reason' Hi; [|done]. by injection Hi as <- <-. }
  assert (Hone : forall (o : outcome (list value)),
             exists o' tr, (o, log ++ [(rq, Sent res)]) = (o', log ++ tr) /\
               forall i rq' reason,
                 tr !! i = Some (rq', Failed reason) ->
                 o' = Raise (RequestException reason)).
  { intros o. exists o, [(rq, Sent res)]. split; [done|]. by intros [|i] rq' reason Hi. }
  destruct (read_page results res) as [[results' next]|e|]; [|apply Hone..].
  destruct (truthy next); [|apply Hone].
  destruct (IH self next params results' (log ++ [(rq, Sent res)]))
    as (o & tr & -> & Hfail).
  exists o, ((rq, Sent res) :: tr). rewrite <- app_assoc. split; [done|].
  intros [|i] rq' reason Hi; [done|]. by eapply Hfail.
Qed.

(** X2: every request of every accessor call is a GET with the three
    headers of the client, the token of the client as it is (also when it
    is [None]) in [Authorization], the default timeout and no body. *)
Theorem accessor_requests_authenticated fuel self c log i rq answer :
  trace (invoke srv fuel self c) log !! i = Some (rq, answer) ->
  rq_verb rq = GET /\
  rq_headers rq = standard_headers self /\
  rq_timeout rq = Some TIMEOUT /\
  rq_json rq = None.
Proof.
  intros Hi.
  destruct (invoke_requests fuel self c log) as (o & tr & Heq & Hall & _).
  rewrite (trace_of_run _ _ _ _ Heq) in Hi.
  apply (Forall_lookup_1 _ _ _ _ Hall) in Hi. simpl in Hi. rewrite Hi.
  by repeat split.
Qed.

(** X3: a transport failure on any request of an accessor call ends the call
    with the exception of the HTTP library; no result is returned. *)
Theorem transport_failure_fails_call fuel self c log i rq reason :
  trace (invoke srv fuel self c) log !! i = Some (rq, Failed reason) ->
  fst (invoke srv fuel self c log) = Raise (RequestException reason).
Proof.
  intros Hi.
  destruct (invoke_cases srv fuel self c) as [Hc|(uri & params & Hc)];
    rewrite Hc in *.
  - unfold trace, raise in Hi. simpl in Hi. by rewrite drop_all in Hi.
  - destruct (collect_loop_failed fuel self uri params [] log) as (o & tr & Heq & Hfail).
    unfold _collect_results in *.
    rewrite (trace_of_run _ _ _ _ Heq) in Hi. rewrite Heq. simpl.
    by eapply Hfail.
Qed.

(** X4: a page that cannot be read ends the accessor call with the exception
    of the step that failed: a body that is not JSON with JSONDecodeError,
    a JSON body that is no object with TypeError, an object without
    [results] with KeyError, and [results] that are null, a number or a
    boolean with TypeError. *)
Theorem malformed_page_fails_call fuel self c log i rq res :
  trace (invoke srv fuel self c) log !! i = Some (rq, Sent res) ->
  http_error (status_code res) = false ->
  (json res = None ->
   fst (invoke srv fuel self c log) = Raise JSONDecodeError) /\
  (forall body, json res = Some body ->
      (forall items, body <> PDict items) ->
      fst (invoke srv fuel self c log) = Raise TypeError) /\
  (forall items, json res = Some (PDict items) ->
      assoc "results" items = None ->
      fst (invoke srv fuel self c log) = Raise (KeyError "results")) /\
  (forall items v, json res = Some (PDict items) ->
      assoc "results" items = Some v ->
      v = PNone \/ (exists b, v = PBool b) \/ (exists n, v = PInt n) ->
      fst (invoke srv fuel self c log) = Raise TypeError).
Proof.
  intros Hi Hst.
  destruct (invoke_requests fuel self c log) as (o & tr & Heq & _ & Herr).
  rewrite (trace_of_run _ _ _ _ Heq) in Hi. rewrite Heq. simpl.
  assert (Hread : forall e, read_page [] res = Raise e -> o = Raise e)
    by (intros e; by apply (Herr i rq res e)).
  unfold read_page, raise_for_status, response_json in Hread.
  rewrite Hst in Hread.
  repeat split.
  - intros Hj. rewrite Hj in Hread. by apply Hread.
  - intros body Hj Hbody. rewrite Hj in Hread. apply Hread.
    destruct body; try done. by destruct (Hbody items).
  - intros items Hj Hr. rewrite Hj in Hread. apply Hread. simpl. by rewrite Hr.
  - intros items v Hj Hr Hv. rewrite Hj in Hread. apply Hread. simpl. rewrite Hr.
    by destruct Hv as [->|[[b ->]|[n ->]]].
Qed.

(** Consecutive exchanges of a linked trace: the later request goes to
    the [next] of the earlier answer. *)
Lemma follows_links_lookup tr :
  forall uri i rq answer rq' answer',
  follows_links uri tr ->
  tr !! i = Some (rq, answer) -> tr !! S i = Some (rq', answer') ->
  exists res body,
    answer = Sent res /\ json res = Some body /\
    getitem body "next" = Return (rq_uri rq') /\ truthy (rq_uri rq') = true.
Proof.
  induction tr as [|[rq0 answer0] tr IH]; intros uri i rq answer rq' answer' Hl Hi Hi';
    [done|].
  destruct tr as [|[rq1 answer1] tr]; [done|].
  destruct Hl as (_ & res & body & next & -> & Hj & Hn & Ht & Hrest).
  destruct i as [|i].
  - injection Hi as <- <-. injection Hi' as <- <-.
    destruct Hrest as [<- _]. by exists res, body.
  - by eapply (IH next i).
Qed.

(** X5: the link of a page is requested as it is, wherever it points, with
    the token of the client: when an accessor call sends a request after
    an answer, the request goes to the [next] of that answer and carries
    the [Authorization] header of the client. *)
Theorem next_link_gets_token fuel self c log i rq res rq' answer' :
  trace (invoke srv fuel self c) log !! i = Some (rq, Sent res) ->
  trace (invoke srv fuel self c) log !! S i = Some (rq', answer') ->
  (exists body,
      json res = Some body /\ getitem body "next" = Return (rq_uri rq')) /\
  rq_headers rq' !! "Authorization" = Some (TokenOf (token self)).
Proof.
  intros Hi Hi'.
  destruct (invoke_cases srv fuel self c) as [Hc|(uri & params & Hc)];
    rewrite Hc in *.
  { unfold trace, raise in Hi. simpl in Hi. by rewrite drop_all in Hi. }
  destruct (collect_loop_run srv fuel self uri params [] log)
    as (o & tr & Heq & _ & Hall & Hlinks & _).
  unfold _collect_results in *.
  rewrite (trace_of_run _ _ _ _ Heq) in Hi, Hi'.
  destruct (follows_links_lookup tr uri i _ _ _ _ Hlinks Hi Hi')
    as (res' & body & [= <-] & Hj & Hn & _).
  split; [by exists body|].
  apply (Forall_lookup_1 _ _ _ _ Hall) in Hi'. simpl in Hi'. by rewrite Hi'.
Qed.

End Executor.

(** A password client that was never entered sends [Token None]. *)
Lemma accessor_requests_authenticated_witness :
  rq_verb (page_request password_client page_two_uri ∅) = GET /\
  rq_headers (page_request password_client page_two_uri ∅) =
    standard_headers password_client /\
  rq_timeout (page_request password_client page_two_uri ∅) = Some TIMEOUT /\
  rq_json (page_request password_client page_two_uri ∅) = None.
Proof.
  apply (accessor_requests_authenticated three_pages 3 password_client Locations []
           1 (page_request password_client page_two_uri ∅)
           (Sent (pg_response second_page))).
  vm_compute. reflexivity.
Defined.

(** The connection drops after the first page. *)
Lemma transport_failure_fails_call_witness :
  fst (invoke (scripted [Sent (pg_response first_page)]) 5 token_client
         Locations []) = Raise (RequestException "connection refused").
Proof.
  apply (transport_failure_fails_call (scripted [Sent (pg_response first_page)]) 5
           token_client Locations [] 1 (page_request token_client page_two_uri ∅)).
  vm_compute. reflexivity.
Defined.

(** A second page that is not JSON, and a first page without [results]. *)
Lemma malformed_page_fails_call_witness :
  fst (invoke (scripted [Sent (pg_response first_page); Sent login_ok]) 5
         token_client Locations []) = Raise (KeyError "results") /\
  fst (invoke (scripted [Sent {| status_code := 200; text := "<html>"; json := None |}])
         5 token_client Locations []) = Raise JSONDecodeError.
Proof.
  split.
  - apply (proj1 (proj2 (proj2
             (malformed_page_fails_call
                (scripted [Sent (pg_response first_page); Sent login_ok]) 5
                token_client Locations [] 1
                (page_request token_client page_two_uri ∅) login_ok
                ltac:(vm_compute; reflexivity) eq_refl)))
             [("token", PStr "abc")]); reflexivity.
  - apply (proj1
             (malformed_page_fails_call
                (scripted [Sent {| status_code := 200; text := "<html>"; json := None |}])
                5 token_client Locations [] 0
                (page_request token_client (PStr (host token_client +:+ "/api/locations")) ∅)
                {| status_code := 200; text := "<html>"; json := None |}
                ltac:(vm_compute; reflexivity) eq_refl)).
    reflexivity.
Defined.

(** The second request of [three_pages] goes to the link of the first
    page, with the token. *)
Lemma next_link_gets_token_witness :
  (exists body,
      json (pg_response first_page) = Some body /\
      getitem body "next" =
        Return (rq_uri (page_request token_client page_two_uri ∅))) /\
  rq_headers (page_request token_client page_two_uri ∅) !! "Authorization" =
    Some (TokenOf (token token_client)).
Proof.
  apply (next_link_gets_token three_pages 3 token_client Locations [] 0
           (page_request token_client (PStr (host token_client +:+ "/api/locations")) ∅)
           (pg_response first_page)
           (page_request token_client page_two_uri ∅)
           (Sent (pg_response second_page)));
    vm_compute; reflexivity.
Defined.

(** ** Entering and leaving a session *)

Section Scope.

Variable srv : server.

(** The requests of a block of accessor calls are page requests of the
    client. *)
Lemma invoke_all_requests self calls :
  forall log, exists o tr,
    invoke_all srv self calls log = (o, log ++ tr) /\
    Forall (fun x : exchange =>
              x.1 = page_request self (rq_uri x.1) (rq_params x.1)) tr.
Proof.
  induction calls as [|[fuel c] calls IH]; intros log.
  { exists (Return []), []. by rewrite app_nil_r. }
  cbn [invoke_all]. unfold bind.
  destruct (invoke_requests srv fuel self c log) as (o & tr & -> & Htr & _).
  destruct o as [r|e|]; [|by eexists _, tr..].
  destruct (IH (log ++ tr)) as (o' & tr' & -> & Htr').
  rewrite <- app_assoc.
  destruct o'; eexists _, (tr ++ tr'); (split; [done | by apply Forall_app]).
Qed.

(** X6: the token that the login returns is the one the session sends: after
    a login answered with a JSON body that has a [token], every request of
    the block is a GET whose [Authorization] header is made of that
    token. *)
Theorem session_sends_login_token self calls log res body t :
  truthy (token self) = false ->
  srv log (login_request self) = Sent res ->
  json res = Some body ->
  getitem body "token" = Return t ->
  exists o tr,
    with_client srv self (fun client => invoke_all srv client calls) log =
      (o, log ++ (login_request self, Sent res) :: tr) /\
    Forall (fun x : exchange =>
              rq_verb x.1 = GET /\
              rq_headers x.1 !! "Authorization" = Some (TokenOf t)) tr.
Proof.
  intros Ht Hsrv Hj Htok.
  set (client := {| host := host self; token := t;
                    username := username self; password := password self |}).
  assert (Henter : __enter__ srv self log =
                   (Return client, log ++ [(login_request self, Sent res)])).
  { unfold __enter__. rewrite Ht. simpl.
    unfold bind, _get_token, bind, send, lift, response_json.
    change (post_request _ _ _ _) with (login_request self).
    by rewrite Hsrv, Hj, Htok. }
  unfold with_client, bind. rewrite Henter.
  destruct (invoke_all_requests client calls
              (log ++ [(login_request self, Sent res)])) as (o & tr & -> & Htr).
  exists o, tr. rewrite <- app_assoc. split; [done|].
  eapply Forall_impl; [exact Htr|]. intros x Hx. simpl in Hx. by rewrite Hx.
Qed.

(** X7: a login that fails leaves the block unrun: the exception of
    [__enter__] is the outcome of the [with] statement and the login is
    its only exchange. *)
Theorem failed_login_skips_block {A} self (body : PgDataClient -> M A) log e :
  truthy (token self) = false ->
  fst (__enter__ srv self log) = Raise e ->
  with_client srv self body log =
    (Raise e, log ++ [(login_request self, srv log (login_request self))]).
Proof.
  intros Ht He. pose proof (enter_run srv self log) as Hrun.
  rewrite Ht in Hrun. destruct Hrun as [o Hrun].
  rewrite Hrun in He. simpl in He. subst o.
  unfold with_client, bind. by rewrite Hrun.
Qed.

(** X8: entering changes the token and nothing else.  With a token that
    Python takes as true nothing is sent, and entering again is a no-op;
    when the login returned a token that Python takes as false (null, the
    empty string), entering again sends the login once more. *)
Theorem enter_changes_token_only self log client log' :
  __enter__ srv self log = (Return client, log') ->
  host client = host self /\
  username client = username self /\
  password client = password self /\
  (truthy (token self) = true -> client = self /\ log' = log) /\
  (truthy (token client) = true ->
   forall log2, __enter__ srv client log2 = (Return client, log2)) /\
  (truthy (token client) = false ->
   forall log2,
     snd (__enter__ srv client log2) =
       log2 ++ [(login_request self, srv log2 (login_request self))]).
Proof.
  intros Hrun.
  assert (Hfields : host client = host self /\ username client = username self /\
                    password client = password self /\
                    (truthy (token self) = true -> client = self /\ log' = log)).
  { unfold __enter__ in Hrun. destruct (truthy (token self)); simpl in Hrun.
    - by injection Hrun as <- <-.
    - unfold bind in Hrun.
      destruct (_get_token srv self log) as [[t|e|] l]; [|done..].
      by injection Hrun as <- <-. }
  destruct Hfields as (Hh & Hu & Hp & Hsame).
  repeat split; try done; try by apply Hsame.
  - intros Ht log2. pose proof (enter_run srv client log2) as H. by rewrite Ht in H.
  - intros Ht log2. pose proof (enter_run srv client log2) as H. rewrite Ht in H.
    destruct H as [o ->]. simpl. unfold login_request. by rewrite Hh, Hu, Hp.
Qed.

(** X13: entering without a token sends exactly one request, the login:
    a POST to the host followed by /api-token-auth/, with the username
    and the password as its JSON body, the default timeout, the two content
    headers and no [Authorization] header. *)
Theorem enter_sends_login self log :
  truthy (token self) = false ->
  exists o rq,
    __enter__ srv self log = (o, log ++ [(rq, srv log rq)]) /\
    rq_verb rq = POST /\
    rq_uri rq = PStr (host self +:+ "/api-token-auth/") /\
    rq_json rq =
      Some (PDict [("username", username self); ("password", password self)]) /\
    rq_params rq = ∅ /\
    rq_timeout rq = Some TIMEOUT /\
    rq_headers rq !! "Content-Type" = Some (Lit HDR_CONTENT) /\
    rq_headers rq !! "Accept" = Some (Lit HDR_ACCEPT) /\
    rq_headers rq !! "Authorization" = None.
Proof.
  intros Ht. pose proof (enter_run srv self log) as Hrun. rewrite Ht in Hrun.
  destruct Hrun as [o Hrun]. exists o, (login_request self). by repeat split.
Qed.

End Scope.

(** The login of [password_client]. *)
Lemma enter_sends_login_witness :
  exists o rq,
    __enter__ session_server password_client [] =
      (o, [] ++ [(rq, session_server [] rq)]) /\
    rq_verb rq = POST /\
    rq_uri rq = PStr (host password_client +:+ "/api-token-auth/") /\
    rq_json rq =
      Some (PDict [("username", username password_client);
                   ("password", password password_client)]) /\
    rq_params rq = ∅ /\
    rq_timeout rq = Some TIMEOUT /\
    rq_headers rq !! "Content-Type" = Some (Lit HDR_CONTENT) /\
    rq_headers rq !! "Accept" = Some (Lit HDR_ACCEPT) /\
    rq_headers rq !! "Authorization" = None.
Proof. exact (enter_sends_login session_server password_client [] eq_refl). Defined.

(** The session of [session_server]: the login returns the token abc,
    and both calls send it. *)
Lemma session_sends_login_token_witness :
  exists o tr,
    with_client session_server password_client
      (fun client => invoke_all session_server client
                       [(3, Locations); (3, PvoutSources)]) [] =
      (o, [] ++ (login_request password_client, Sent login_ok) :: tr) /\
    Forall (fun x : exchange =>
              rq_verb x.1 = GET /\
              rq_headers x.1 !! "Authorization" = Some (TokenOf (PStr "abc"))) tr.
Proof.
  apply (session_sends_login_token session_server password_client
           [(3, Locations); (3, PvoutSources)] [] login_ok
           (PDict [("token", PStr "abc")]) (PStr "abc"));
    reflexivity.
Defined.

(** No server answers: the block is not run. *)
Lemma failed_login_skips_block_witness :
  with_client (scripted []) password_client
    (fun client => invoke_all (scripted []) client [(3, Locations)]) [] =
    (Raise (RequestException "connection refused"),
     [] ++ [(login_request password_client,
             scripted [] [] (login_request password_client))]).
Proof.
  apply (failed_login_skips_block (scripted []) password_client
           (fun client => invoke_all (scripted []) client [(3, Locations)]) []
           (RequestException "connection refused"));
    reflexivity.
Defined.

(** Entering [password_client] on [session_server]. *)
Lemma enter_changes_token_only_witness :
  host {| host := "https://pgdata.com:443"; token := PStr "abc";
          username := PStr "alice"; password := PStr "secret" |} =
    host password_client /\
  username {| host := "https://pgdata.com:443"; token := PStr "abc";
              username := PStr "alice"; password := PStr "secret" |} =
    username password_client.
Proof.
  pose proof (enter_changes_token_only session_server password_client []
                {| host := "https://pgdata.com:443"; token := PStr "abc";
                   username := PStr "alice"; password := PStr "secret" |}
                [(login_request password_client, Sent login_ok)] eq_refl)
    as (Hh & Hu & _).
  by split.
Defined.

(** ** Query parameters of the other accessors *)

Section Queries.

Variable srv : server.

(** With fuel for one turn, the paginator sends the request for its URI
    first. *)
Lemma collect_first_request fuel self uri params log :
  exists o tr,
    _collect_results srv (S fuel) self uri params log =
      (o, log ++ (page_request self uri params,
                  srv log (page_request self uri params)) :: tr).
Proof.
  unfold _collect_results. rewrite collect_loop_S. cbv zeta.
  set (rq := page_request self uri params).
  destruct (srv log rq) as [res|reason]; [|by eexists _, []].
  destruct (read_page [] res) as [[results' next]|e|]; [|by eexists _, []..].
  destruct (truthy next); [|by eexists _, []].
  destruct (collect_loop_run srv fuel self next params results' (log ++ [(rq, Sent res)]))
    as (o & tr & -> & _).
  exists o, tr. by rewrite <- app_assoc.
Qed.

(** X9: the six accessors without arguments: the first request goes to the
    host followed by the path of the resource, and no request of the call
    has a query parameter. *)
Theorem plain_accessors_send_no_params fuel self c path log :
  (c, path) ∈ [(Locations, "/api/locations");
               (IrradiationSources, "/api/irradiation-source");
               (PvoutSources, "/api/pvout-source");
               (WindSources, "/api/wind-source");
               (TemperatureSources, "/api/temperature-source");
               (UtilityFootprint, "/api/utility-footprint")] ->
  trace (invoke srv (S fuel) self c) log !! 0 =
    Some (page_request self (PStr (host self +:+ path)) ∅,
          srv log (page_request self (PStr (host self +:+ path)) ∅)) /\
  forall i rq answer,
    trace (invoke srv (S fuel) self c) log !! i = Some (rq, answer) ->
    rq_params rq = ∅.
Proof.
  intros Hc.
  assert (Hinv : invoke srv (S fuel) self c =
                 _collect_results srv (S fuel) self (PStr (host self +:+ path)) ∅).
  { apply list_elem_of_In in Hc. simpl in Hc.
    repeat (destruct Hc as [[= <- <-]|Hc]; [reflexivity|]). done. }
  rewrite Hinv. split.
  - destruct (collect_first_request fuel self (PStr (host self +:+ path)) ∅ log)
      as (o & tr & Heq).
    by rewrite (trace_of_run _ _ _ _ Heq).
  - intros i rq answer Hi.
    destruct (requests_carry_params srv (S fuel) self (PStr (host self +:+ path)) ∅ log)
      as (o & tr & Heq & Hall).
    rewrite (trace_of_run _ _ _ _ Heq) in Hi. by eapply Hall.
Qed.

(** X10: the six series of a source (irradiation, PV output, wind and
    temperature, daily or hourly): every request of the call carries
    exactly ts__gte, ts__lte and source, the dates in ISO text. *)
Theorem source_series_params fuel self source start_date end_date c log i rq answer :
  c ∈ [IrradiationDaily source start_date end_date;
       IrradiationHourly source start_date end_date;
       PvoutDaily source start_date end_date;
       PvoutHourly source start_date end_date;
       WindHourly source start_date end_date;
       TemperatureHourly source start_date end_date] ->
  trace (invoke srv fuel self c) log !! i = Some (rq, answer) ->
  dom (rq_params rq) = {[ "ts__gte"; "ts__lte"; "source" ]} /\
  rq_params rq !! "ts__gte" = Some (PStr (isoformat start_date)) /\
  rq_params rq !! "ts__lte" = Some (PStr (isoformat end_date)) /\
  rq_params rq !! "source" = Some source.
Proof.
  intros Hc Hi.
  assert (Hinv : exists path,
             invoke srv fuel self c =
             _collect_results srv fuel self (PStr (host self +:+ path))
               {[ "ts__gte" := PStr (isoformat start_date);
                  "ts__lte" := PStr (isoformat end_date);
                  "source" := source ]}).
  { apply list_elem_of_In in Hc. simpl in Hc.
    repeat (destruct Hc as [<-|Hc]; [eexists; reflexivity|]). done. }
  destruct Hinv as [path Hinv]. rewrite Hinv in Hi.
  destruct (requests_carry_params srv fuel self (PStr (host self +:+ path))
              {[ "ts__gte" := PStr (isoformat start_date);
                 "ts__lte" := PStr (isoformat end_date);
                 "source" := source ]} log)
    as (o & tr & Heq & Hall).
  rewrite (trace_of_run _ _ _ _ Heq) in Hi.
  rewrite (Hall _ _ _ Hi). by repeat split.
Qed.

(** X11: the utility statements (revenues and expenses): every request of the
    call carries system_id, and period_year and period_month exactly when
    the argument is not [None]; a period of 0 is sent, and no key is sent
    with the value [None] for an omitted period. *)
Theorem utility_statement_params fuel self system_id period_year period_month c log
    i rq answer :
  c ∈ [UtilRevenues system_id period_year period_month;
       UtilExpenses system_id period_year period_month] ->
  trace (invoke srv fuel self c) log !! i = Some (rq, answer) ->
  rq_params rq !! "system_id" = Some system_id /\
  rq_params rq !! "period_year" =
    (if is_none period_year then None else Some period_year) /\
  rq_params rq !! "period_month" =
    (if is_none period_month then None else Some period_month) /\
  forall k, k ∈ dom (rq_params rq) ->
            k = "system_id" \/ k = "period_year" \/ k = "period_month".
Proof.
  intros Hc Hi.
  assert (Hinv : exists path params,
             invoke srv fuel self c =
               _collect_results srv fuel self (PStr (host self +:+ path)) params /\
             params =
               (if negb (is_none period_month)
                then <["period_month" := period_month]>
                else id)
                 ((if negb (is_none period_year)
                   then <["period_year" := period_year]>
                   else id) {[ "system_id" := system_id ]})).
  { apply list_elem_of_In in Hc. simpl in Hc.
    repeat (destruct Hc as [<-|Hc];
            [eexists _, _; split; [reflexivity|];
             by destruct (is_none period_year), (is_none period_month)|]).
    done. }
  destruct Hinv as (path & params & Hinv & Hparams). rewrite Hinv in Hi.
  destruct (requests_carry_params srv fuel self (PStr (host self +:+ path)) params log)
    as (o & tr & Heq & Hall).
  rewrite (trace_of_run _ _ _ _ Heq) in Hi.
  rewrite (Hall _ _ _ Hi), Hparams.
  destruct (is_none period_year), (is_none period_month); simpl;
    (split; [by simplify_map_eq|]; split; [by simplify_map_eq|];
     split; [by simplify_map_eq|]);
    intros k Hk; rewrite ?dom_insert_L, dom_singleton_L in Hk;
    rewrite ?elem_of_union, !elem_of_singleton in Hk; tauto.
Qed.

End Queries.

(** [get_wind_sources] on [three_pages]. *)
Lemma plain_accessors_send_no_params_witness :
  trace (invoke three_pages 3 token_client WindSources) [] !! 0 =
    Some (page_request token_client (PStr (host token_client +:+ "/api/wind-source")) ∅,
          three_pages []
            (page_request token_client
               (PStr (host token_client +:+ "/api/wind-source")) ∅)) /\
  forall i rq answer,
    trace (invoke three_pages 3 token_client WindSources) [] !! i = Some (rq, answer) ->
    rq_params rq = ∅.
Proof.
  apply (plain_accessors_send_no_params three_pages 2 token_client WindSources
           "/api/wind-source" []).
  repeat constructor.
Defined.

(** The first request of an hourly wind series from 1 to 2 January 2023,
    six in the morning. *)
Lemma source_series_params_witness :
  dom (rq_params
         (page_request token_client (PStr (host token_client +:+ "/api/wind-hourly"))
            {[ "ts__gte" := PStr "2023-01-01T06:00:00";
               "ts__lte" := PStr "2023-01-02T06:00:00";
               "source" := PStr "era5" ]})) =
    {[ "ts__gte"; "ts__lte"; "source" ]} /\
  rq_params
    (page_request token_client (PStr (host token_client +:+ "/api/wind-hourly"))
       {[ "ts__gte" := PStr "2023-01-01T06:00:00";
          "ts__lte" := PStr "2023-01-02T06:00:00";
          "source" := PStr "era5" ]}) !! "ts__gte" =
    Some (PStr (isoformat
                  (DateTime {| on_day := {| year := 2023; month := 1; day := 1 |};
                               hour := 6; minute := 0; second := 0;
                               microsecond := 0 |}))).
Proof.
  pose proof (source_series_params three_pages 3 token_client (PStr "era5")
                (DateTime {| on_day := {| year := 2023; month := 1; day := 1 |};
                             hour := 6; minute := 0; second := 0; microsecond := 0 |})
                (DateTime {| on_day := {| year := 2023; month := 1; day := 2 |};
                             hour := 6; minute := 0; second := 0; microsecond := 0 |})
                (WindHourly (PStr "era5")
                   (DateTime {| on_day := {| year := 2023; month := 1; day := 1 |};
                                hour := 6; minute := 0; second := 0; microsecond := 0 |})
                   (DateTime {| on_day := {| year := 2023; month := 1; day := 2 |};
                                hour := 6; minute := 0; second := 0; microsecond := 0 |}))
                [] 0
                (page_request token_client
                   (PStr (host token_client +:+ "/api/wind-hourly"))
                   {[ "ts__gte" := PStr "2023-01-01T06:00:00";
                      "ts__lte" := PStr "2023-01-02T06:00:00";
                      "source" := PStr "era5" ]})
                (Sent (pg_response first_page))
                ltac:(repeat constructor) ltac:(vm_compute; reflexivity))
    as (Hdom & Hgte & _).
  by split.
Defined.

(** Revenues of system A1 for year 0 and no month: the year is sent, the
    month is not. *)
Lemma utility_statement_params_witness :
  rq_params
    (page_request token_client (PStr (host token_client +:+ "/api/utility-revenue"))
       {[ "system_id" := PStr "A1"; "period_year" := PInt 0 ]}) !! "period_year" =
    Some (PInt 0) /\
  rq_params
    (page_request token_client (PStr (host token_client +:+ "/api/utility-revenue"))
       {[ "system_id" := PStr "A1"; "period_year" := PInt 0 ]}) !! "period_month" =
    None.
Proof.
  pose proof (utility_statement_params three_pages 3 token_client (PStr "A1")
                (PInt 0) PNone (UtilRevenues (PStr "A1") (PInt 0) PNone) [] 0
                (page_request token_client
                   (PStr (host token_client +:+ "/api/utility-revenue"))
                   {[ "system_id" := PStr "A1"; "period_year" := PInt 0 ]})
                (Sent (pg_response first_page))
                ltac:(repeat constructor) ltac:(vm_compute; reflexivity))
    as (_ & Hyear & Hmonth & _).
  by split.
Defined.

(** ** The host of a constructed client *)

(** X12: trailing slashes of the host do not matter: a host that ends in a
    character other than a slash gives the same client with any number of
    slashes after it, and with credentials that pass the assertion the
    client stores that host, a colon and the port. *)
Theorem trailing_slashes_ignored h c k port tok user pw :
  last_char h = Some c -> c <> "/"%char ->
  __init__ (h +:+ slashes k) port tok user pw = __init__ h port tok user pw /\
  (truthy (py_or tok (py_and user pw)) = true ->
   __init__ h port tok user pw =
     Return {| host := h +:+ ":" +:+ str_of_int port;
               token := tok; username := user; password := pw |}).
Proof.
  intros Hlast Hc.
  assert (Hh : strip_slashes h = Return h).
  { rewrite strip_slashes_turn, Hlast. by destruct (Ascii.eqb_spec c "/"). }
  assert (Hk : strip_slashes (h +:+ slashes k) = Return h).
  { induction k as [|k IH]; [by rewrite app_empty_r|].
    by rewrite <- slashes_snoc, app_snoc, strip_slashes_snoc. }
  unfold __init__. rewrite Hh, Hk. split; [done|]. by intros ->.
Qed.

(** The host of the class docstring, with and without slashes. *)
Lemma trailing_slashes_ignored_witness :
  __init__ ("https://pgdata.com" +:+ slashes 3) 443 (PStr "av89DF23nalkfn3") PNone PNone =
    __init__ "https://pgdata.com" 443 (PStr "av89DF23nalkfn3") PNone PNone /\
  (truthy (py_or (PStr "av89DF23nalkfn3") (py_and PNone PNone)) = true ->
   __init__ "https://pgdata.com" 443 (PStr "av89DF23nalkfn3") PNone PNone =
     Return {| host := "https://pgdata.com" +:+ ":" +:+ str_of_int 443;
               token := PStr "av89DF23nalkfn3"; username := PNone; password := PNone |}).
Proof.
  apply (trailing_slashes_ignored "https://pgdata.com" "m" 3 443
           (PStr "av89DF23nalkfn3") PNone PNone); [reflexivity | discriminate].
Defined.
